(** * osutify: the osu!lazer database reader ([electron/lib/lazer-database.ts])

    A shallow embedding of [OsuLazerDatabase] and of the records it reads,
    followed by the properties of the extraction pass [getAsBeatmapData].

    Conventions of the embedding
    - a Realm [string?] property is a [nullable string];
    - the result of [?.], [Array.prototype.at], [Array.prototype.find] and of an
      index expression is an [optional] value ([undefined] or a value);
    - a Realm [double] is a primitive [float], a Realm [int] a [Z]; both are
      only copied by the code, never computed with;
    - strings are [string]s of one-byte characters, so [substring] agrees with
      the JavaScript method on the hexadecimal hashes the store holds;
    - the effects of the class (console output, messages to the window, glob
      searches) are recorded, in program order, in a trace of [event]s;
      a [throw] ends the computation and keeps the trace emitted so far. *)

From Stdlib Require Import List String Ascii ZArith Lia Bool PeanoNat Permutation.
From Stdlib Require Import PrimFloat DecimalString.
Import ListNotations.
Open Scope string_scope.
Open Scope list_scope.

(** ** JavaScript values *)

Inductive nullable (A : Type) : Type :=
| null : nullable A
| val (a : A) : nullable A.
Arguments null {A}.
Arguments val {A} a.

Abbreviation optional := option (only parsing).
Abbreviation undefined := None (only parsing).
Abbreviation defined := Some (only parsing).

(** [x?.f] *)
Definition chain {A B : Type} (x : optional A) (f : A -> B) : optional B :=
  match x with
  | defined a => defined (f a)
  | undefined => undefined
  end.

(** [x?.f] where [x] may also be [null]: both [null] and [undefined] stop the chain. *)
Definition chain_nullable {A B : Type} (x : optional (nullable A)) (f : A -> B)
  : optional B :=
  match x with
  | defined (val a) => defined (f a)
  | _ => undefined
  end.

(** [xs.at(i)] and [xs[i]] for a non-negative index. *)
Definition at_ {A : Type} (xs : list A) (i : nat) : optional A := nth_error xs i.

(** [xs.find(p)] *)
Definition find_ {A : Type} (p : A -> bool) (xs : list A) : optional A := find p xs.

(** [a == b] between a Realm [string?] and the result of an optional chain
    ending in a [string?]: [null == undefined] and [null == null] hold, two
    strings are compared by content, a string never equals [null] or
    [undefined]. *)
Definition loose_eq (a : nullable string) (b : optional (nullable string)) : bool :=
  match a, b with
  | null, undefined => true
  | null, defined null => true
  | val s, defined (val t) => String.eqb s t
  | _, _ => false
  end.

(** The string a value contributes to a template literal or to [+]. *)
Class ToStr (A : Type) := to_str : A -> string.

#[global] Instance ToStr_string : ToStr string := fun s => s.
#[global] Instance ToStr_nat : ToStr nat :=
  fun n => NilZero.string_of_uint (Nat.to_uint n).
#[global] Instance ToStr_nullable {A} `{ToStr A} : ToStr (nullable A) :=
  fun x => match x with null => "null" | val a => to_str a end.
#[global] Instance ToStr_optional {A} `{ToStr A} : ToStr (optional A) :=
  fun x => match x with undefined => "undefined" | defined a => to_str a end.

(** [s.replace(/\\/g, "/")] *)
Fixpoint replace_backslashes (s : string) : string :=
  match s with
  | EmptyString => EmptyString
  | String c s' =>
      String (if Ascii.eqb c "\"%char then "/"%char else c) (replace_backslashes s')
  end.

(** ** The Realm schema, as far as the class declares fields *)

Module File.
Record t := { Hash : nullable string }.
End File.

Module RealmNamedFileUsage.
Record t := { File : File.t; Filename : nullable string }.
End RealmNamedFileUsage.

Module BeatmapMetadata.
Record t := {
  Title : nullable string;
  TitleUnicode : nullable string;
  Artist : nullable string;
  ArtistUnicode : nullable string;
  Tags : nullable string;
  AudioFile : nullable string;
  BackgroundFile : nullable string
}.
End BeatmapMetadata.

Module Beatmap.
Record t := {
  Metadata : BeatmapMetadata.t;
  Length : float;
  BPM : float
}.
End Beatmap.

Module BeatmapSet.
Record t := {
  Beatmaps : list Beatmap.t;
  OnlineID : Z;
  Hash : nullable string;
  Files : list RealmNamedFileUsage.t
}.
End BeatmapSet.

(** The output record. *)
Record OsuBeatmapData := {
  id : Z;
  artist : optional (nullable string);
  artist_unicode : optional (nullable string);
  title : optional (nullable string);
  title_unicode : optional (nullable string);
  hash : optional (nullable string);
  audio : optional (nullable string);
  audio_hash : optional (nullable string);
  audio_path : optional string;
  background : optional (nullable string);
  background_hash : optional (nullable string);
  background_path : optional string;
  tags : optional (nullable string);
  total_time : optional float;
  bpm : optional float
}.

(** ** Effects *)

Inductive exn := Error (message : string).

(** A [BrowserWindow] is known by its id. *)
Definition BrowserWindow := nat.

Inductive event :=
| ConsoleLog (msg : string)
| WebContentsSend (w : BrowserWindow) (channel : string) (data : string)
| GlobSearch (pattern : string).

Inductive outcome (A : Type) : Type :=
| Return (a : A)
| Throw (e : exn).
Arguments Return {A} a.
Arguments Throw {A} e.

Definition IO (A : Type) : Type := (outcome A * list event)%type.

Definition ret {A} (a : A) : IO A := (Return a, []).
Definition throw {A} (e : exn) : IO A := (Throw e, []).
Definition emit (e : event) : IO unit := (Return tt, [e]).

Definition bind {A B} (m : IO A) (k : A -> IO B) : IO B :=
  match m with
  | (Return a, t) => let (r, t') := k a in (r, t ++ t')
  | (Throw e, t) => (Throw e, t)
  end.

Notation "x <- m ;; k" := (bind m (fun x => k))
  (at level 61, m at next level, right associativity).
Notation "m ;;; k" := (bind m (fun _ => k))
  (at level 61, right associativity).

(** [for (const x of xs) body], the loop variables threaded through [s]. *)
Fixpoint for_of {A S : Type} (xs : list A) (body : A -> S -> IO S) (s : S) : IO S :=
  match xs with
  | [] => ret s
  | x :: xs' => s' <- body x s ;; for_of xs' body s'
  end.

(** [c && m] used as a statement. *)
Definition when (c : bool) (m : IO unit) : IO unit := if c then m else ret tt.

(** ** The world outside the class *)

(** An open Realm: the stored [BeatmapSet]s in storage order.  [close] marks
    it closed; the engine refuses to read a closed Realm. *)
Module Realm.
Record t := { sets : list BeatmapSet.t; isClosed : bool }.

(** The live collection [objects(type)] answers for a type given by name:
    it reads nothing yet. *)
Record Results := { realm : t; type : string }.

Definition closed_error : exn := Error "Cannot access realm that has been closed.".

(** [objects(BeatmapSet)], iterated or measured. *)
Definition objects (r : t) : IO (list BeatmapSet.t) :=
  if isClosed r then throw closed_error else ret (sets r).

(** [objects(type)] *)
Definition objects_named (r : t) (name : string) : IO Results :=
  if isClosed r then throw closed_error else ret {| realm := r; type := name |}.

Definition close (r : t) : t := {| sets := sets r; isClosed := true |}.
End Realm.

Record Env := {
  (** [app.getPath("appData")] *)
  appData : string;
  (** [join] of [node:path] *)
  join : list string -> string;
  (** the matches [glob.glob(pattern, { absolute: true })] resolves to *)
  glob_matches : string -> list string;
  (** [Realm.open({ path, schema, schemaVersion: 41 })]: the store, or the
      error it rejects with *)
  realm_open : string -> outcome (list BeatmapSet.t)
}.

(** [join] on a POSIX platform, for segments that are already normalized. *)
Definition posix_join (segments : list string) : string := String.concat "/" segments.

(** ** The class [OsuLazerDatabase] *)

Record OsuLazerDatabase := {
  connection : optional Realm.t;
  window : optional BrowserWindow
}.

(** [constructor(window = null)]; a window object is truthy, so [window || null]
    keeps it. *)
Definition constructor (w : optional BrowserWindow) : OsuLazerDatabase :=
  {| connection := undefined; window := w |}.

Definition console_log (msg : string) : IO unit := emit (ConsoleLog msg).

Definition sendDebugData (this : OsuLazerDatabase) (data : string) : IO unit :=
  match window this with
  | defined w => emit (WebContentsSend w "debug-data" data)
  | undefined => ret tt
  end.

Definition not_connected : exn := Error "You should open connection at first.".

Section WithEnv.
Variable env : Env.

(** [Realm.open(...)], awaited. *)
Definition Realm_open (path : string) : IO Realm.t :=
  match realm_open env path with
  | Return ss => ret {| Realm.sets := ss; Realm.isClosed := false |}
  | Throw e => throw e
  end.

Definition open (path : string) (w : optional BrowserWindow) : IO OsuLazerDatabase :=
  let db := constructor w in
  console_log "Try to connect realm db..." ;;;
  sendDebugData db "Try to connect realm db..." ;;;
  conn <- Realm_open path ;;
  let db := {| connection := defined conn; window := window db |} in
  console_log "Connected to realm db." ;;;
  ret db.

Definition getConnection (this : OsuLazerDatabase) : optional Realm.t :=
  connection this.

Definition getObjects (this : OsuLazerDatabase) (type : string) : IO Realm.Results :=
  match connection this with
  | defined conn => Realm.objects_named conn type
  | undefined => throw not_connected
  end.

(** The glob pattern of lines 76-83 and 93-100, for the hash found. *)
Definition glob_pattern (h : optional (nullable string)) : string :=
  (to_str (join env [appData env; "osu"; "files"]) ++ "/" ++
   to_str (chain_nullable h (substring 0 1)) ++ "/" ++
   to_str (chain_nullable h (substring 0 2)) ++ "/" ++
   to_str h)%string.

(** [await glob.glob(pattern, { absolute: true }).then(p => p.map(...))] *)
Definition glob_paths (h : optional (nullable string)) : IO (list string) :=
  emit (GlobSearch (glob_pattern h)) ;;;
  ret (map replace_backslashes (glob_matches env (glob_pattern h))).

(** The hash of the first file usage whose name is [==] to [name]. *)
Definition file_hash (files : list RealmNamedFileUsage.t)
    (name : optional (nullable string)) : optional (nullable string) :=
  chain (find_ (fun f => loose_eq (RealmNamedFileUsage.Filename f) name) files)
        (fun f => File.Hash (RealmNamedFileUsage.File f)).

(** One turn of the loop of [getAsBeatmapData]; the loop variables are
    [data] and [count]. *)
Definition loop_body (this : OsuLazerDatabase) (conn : Realm.t)
    (set : BeatmapSet.t) (s : list OsuBeatmapData * nat)
  : IO (list OsuBeatmapData * nat) :=
  let (data, count) := s in
  let first := at_ (BeatmapSet.Beatmaps set) 0 in
  let files := BeatmapSet.Files set in
  let audioHash :=
    file_hash files
      (chain first (fun b => BeatmapMetadata.AudioFile (Beatmap.Metadata b))) in
  audioPaths <- glob_paths audioHash ;;
  let backgroundHash :=
    file_hash files
      (chain first (fun b => BeatmapMetadata.BackgroundFile (Beatmap.Metadata b))) in
  backgroundPaths <- glob_paths backgroundHash ;;
  let extracted := {|
    id := BeatmapSet.OnlineID set;
    artist := chain first (fun b => BeatmapMetadata.Artist (Beatmap.Metadata b));
    artist_unicode :=
      chain first (fun b => BeatmapMetadata.ArtistUnicode (Beatmap.Metadata b));
    title := chain first (fun b => BeatmapMetadata.Title (Beatmap.Metadata b));
    title_unicode :=
      chain first (fun b => BeatmapMetadata.TitleUnicode (Beatmap.Metadata b));
    audio := chain first (fun b => BeatmapMetadata.AudioFile (Beatmap.Metadata b));
    audio_hash := audioHash;
    audio_path := at_ audioPaths 0;
    background :=
      chain first (fun b => BeatmapMetadata.BackgroundFile (Beatmap.Metadata b));
    background_hash := backgroundHash;
    background_path := at_ backgroundPaths 0;
    hash := defined (BeatmapSet.Hash set);
    tags := chain first (fun b => BeatmapMetadata.Tags (Beatmap.Metadata b));
    total_time := chain first Beatmap.Length;
    bpm := chain first Beatmap.BPM
  |} in
  let count := S count in
  when (Nat.eqb (count mod 50) 0)
    (all <- Realm.objects conn ;;
     sendDebugData this
       ("Loading: " ++ to_str (title extracted) ++ " (" ++ to_str count ++ " / " ++
        to_str (List.length all) ++ ")")%string) ;;;
  console_log ("Loaded: " ++ to_str (title extracted))%string ;;;
  ret (data ++ [extracted], count).

Definition getAsBeatmapData (this : OsuLazerDatabase) : IO (list OsuBeatmapData) :=
  match connection this with
  | defined conn =>
      sets <- Realm.objects conn ;;
      s <- for_of sets (loop_body this conn) ([], 0) ;;
      sendDebugData this "Data loaded." ;;;
      ret (fst s)
  | undefined => throw not_connected
  end.

(** [close()] closes the Realm and leaves the field as it is. *)
Definition close (this : OsuLazerDatabase) : OsuLazerDatabase :=
  match connection this with
  | defined conn =>
      {| connection := defined (Realm.close conn); window := window this |}
  | undefined => this
  end.

End WithEnv.

(** ** What one pass computes and emits *)

Section Pass.
Variable env : Env.

(** The matches the code keeps for a hash: the glob result, separators
    replaced. *)
Definition resolved_paths (h : optional (nullable string)) : list string :=
  map replace_backslashes (glob_matches env (glob_pattern env h)).

Definition primary (set : BeatmapSet.t) : optional Beatmap.t :=
  at_ (BeatmapSet.Beatmaps set) 0.

Definition audio_name (set : BeatmapSet.t) : optional (nullable string) :=
  chain (primary set) (fun b => BeatmapMetadata.AudioFile (Beatmap.Metadata b)).

Definition background_name (set : BeatmapSet.t) : optional (nullable string) :=
  chain (primary set) (fun b => BeatmapMetadata.BackgroundFile (Beatmap.Metadata b)).

(** The record [loop_body] pushes for [set]. *)
Definition extracted_of (set : BeatmapSet.t) : OsuBeatmapData :=
  let first := primary set in
  let audioHash := file_hash (BeatmapSet.Files set) (audio_name set) in
  let backgroundHash := file_hash (BeatmapSet.Files set) (background_name set) in
  {| id := BeatmapSet.OnlineID set;
     artist := chain first (fun b => BeatmapMetadata.Artist (Beatmap.Metadata b));
     artist_unicode :=
       chain first (fun b => BeatmapMetadata.ArtistUnicode (Beatmap.Metadata b));
     title := chain first (fun b => BeatmapMetadata.Title (Beatmap.Metadata b));
     title_unicode :=
       chain first (fun b => BeatmapMetadata.TitleUnicode (Beatmap.Metadata b));
     audio := audio_name set;
     audio_hash := audioHash;
     audio_path := at_ (resolved_paths audioHash) 0;
     background := background_name set;
     background_hash := backgroundHash;
     background_path := at_ (resolved_paths backgroundHash) 0;
     hash := defined (BeatmapSet.Hash set);
     tags := chain first (fun b => BeatmapMetadata.Tags (Beatmap.Metadata b));
     total_time := chain first Beatmap.Length;
     bpm := chain first Beatmap.BPM |}.

Definition loading_message (set : BeatmapSet.t) (count total : nat) : string :=
  ("Loading: " ++ to_str (title (extracted_of set)) ++ " (" ++ to_str count ++ " / " ++
   to_str total ++ ")")%string.

(** What [sendDebugData] puts on the trace. *)
Definition sent (this : OsuLazerDatabase) (data : string) : list event :=
  match window this with
  | defined w => [WebContentsSend w "debug-data" data]
  | undefined => []
  end.

(** The events of the turn that raises [count] to [k]. *)
Definition turn_trace (this : OsuLazerDatabase) (total k : nat) (set : BeatmapSet.t)
  : list event :=
  [GlobSearch (glob_pattern env (file_hash (BeatmapSet.Files set) (audio_name set)));
   GlobSearch (glob_pattern env (file_hash (BeatmapSet.Files set) (background_name set)))]
  ++ (if Nat.eqb (k mod 50) 0 then sent this (loading_message set k total) else [])
  ++ [ConsoleLog ("Loaded: " ++ to_str (title (extracted_of set)))%string].

Fixpoint loop_trace (this : OsuLazerDatabase) (total count : nat)
    (sets : list BeatmapSet.t) : list event :=
  match sets with
  | [] => []
  | set :: rest =>
      turn_trace this total (S count) set ++ loop_trace this total (S count) rest
  end.

(** The message due when the counter reaches [k], the loop having started
    at [count] on [sets]. *)
Definition message_at (total count : nat) (sets : list BeatmapSet.t) (k : nat) : string :=
  match nth_error sets (k - S count) with
  | Some set => loading_message set k total
  | None => EmptyString
  end.

End Pass.

(** The data of the messages sent to a window, in order. *)
Fixpoint sent_data (t : list event) : list string :=
  match t with
  | [] => []
  | WebContentsSend _ _ data :: t' => data :: sent_data t'
  | _ :: t' => sent_data t'
  end.

(** [true] when a path still holds a backslash. *)
Fixpoint has_backslash (s : string) : bool :=
  match s with
  | EmptyString => false
  | String c s' => Ascii.eqb c "\"%char || has_backslash s'
  end.

(** Two stored sets that differ at most in the order of their [Beatmaps] and
    of their [Files]. *)
Definition permuted_within (a b : BeatmapSet.t) : Prop :=
  BeatmapSet.OnlineID a = BeatmapSet.OnlineID b /\
  BeatmapSet.Hash a = BeatmapSet.Hash b /\
  Permutation (BeatmapSet.Beatmaps a) (BeatmapSet.Beatmaps b) /\
  Permutation (BeatmapSet.Files a) (BeatmapSet.Files b).

(** ** Stores and file systems used as examples *)

Module Example.

Definition usage (name hash : string) : RealmNamedFileUsage.t :=
  {| RealmNamedFileUsage.File := {| File.Hash := val hash |};
     RealmNamedFileUsage.Filename := val name |}.

Definition metadata (ttl : string) (audio background : nullable string)
  : BeatmapMetadata.t :=
  {| BeatmapMetadata.Title := val ttl;
     BeatmapMetadata.TitleUnicode := val ttl;
     BeatmapMetadata.Artist := val "xi";
     BeatmapMetadata.ArtistUnicode := val "xi";
     BeatmapMetadata.Tags := null;
     BeatmapMetadata.AudioFile := audio;
     BeatmapMetadata.BackgroundFile := background |}.

Definition beatmap (ttl : string) (audio background : nullable string)
    (len tempo : float) : Beatmap.t :=
  {| Beatmap.Metadata := metadata ttl audio background;
     Beatmap.Length := len;
     Beatmap.BPM := tempo |}.

(** The set of the end-to-end scenario; the scenario leaves the metadata
    besides the two file names open. *)
Definition set42 (ttl ttl_unicode art art_unicode tgs : nullable string)
  : BeatmapSet.t :=
  {| BeatmapSet.Beatmaps :=
       [ {| Beatmap.Metadata :=
              {| BeatmapMetadata.Title := ttl;
                 BeatmapMetadata.TitleUnicode := ttl_unicode;
                 BeatmapMetadata.Artist := art;
                 BeatmapMetadata.ArtistUnicode := art_unicode;
                 BeatmapMetadata.Tags := tgs;
                 BeatmapMetadata.AudioFile := val "track.mp3";
                 BeatmapMetadata.BackgroundFile := val "bg.jpg" |};
            Beatmap.Length := 180.5%float;
            Beatmap.BPM := 174%float |} ];
     BeatmapSet.OnlineID := 42;
     BeatmapSet.Hash := val "abc";
     BeatmapSet.Files := [usage "track.mp3" "deadbeef"; usage "bg.jpg" "f00dface"] |}.

(** A set with two difficulties whose metadata differ, and a set with none. *)
Definition set_two : BeatmapSet.t :=
  {| BeatmapSet.Beatmaps :=
       [beatmap "Freedom Dive" (val "a.mp3") (val "a.png") 257.5%float 222.25%float;
        beatmap "Blue Zenith" (val "b.ogg") null 1%float 2%float];
     BeatmapSet.OnlineID := 7;
     BeatmapSet.Hash := val "0a1b";
     BeatmapSet.Files := [usage "a.png" "c0ffee"; usage "a.mp3" "1234abcd"] |}.

Definition set_empty : BeatmapSet.t :=
  {| BeatmapSet.Beatmaps := [];
     BeatmapSet.OnlineID := 8;
     BeatmapSet.Hash := null;
     BeatmapSet.Files := [usage "a.mp3" "1234abcd"] |}.

(** The same set as [set_two], both sub-collections in another order. *)
Definition set_two_permuted : BeatmapSet.t :=
  {| BeatmapSet.Beatmaps := rev (BeatmapSet.Beatmaps set_two);
     BeatmapSet.OnlineID := 7;
     BeatmapSet.Hash := val "0a1b";
     BeatmapSet.Files := rev (BeatmapSet.Files set_two) |}.

(** A POSIX machine whose application data are in [/home/user/.config] and
    whose file system holds exactly the files [present]: a pattern without
    wildcards matches the file of that name, if there is one. *)
Definition machine (present : list string) (store : list BeatmapSet.t) : Env :=
  {| appData := "/home/user/.config";
     join := posix_join;
     glob_matches := fun pattern =>
       if existsb (String.eqb pattern) present then [pattern] else [];
     realm_open := fun _ => Return store |}.

Definition deadbeef_path : string := "/home/user/.config/osu/files/d/de/deadbeef".

(** The file a search for an absent hash looks for. *)
Definition undefined_path : string :=
  "/home/user/.config/osu/files/undefined/undefined/undefined".

Definition live (store : list BeatmapSet.t) : Realm.t :=
  {| Realm.sets := store; Realm.isClosed := false |}.

Definition database (w : optional BrowserWindow) (store : list BeatmapSet.t)
  : OsuLazerDatabase :=
  {| connection := defined (live store); window := w |}.

End Example.

(** ** The trace, read by kind of event *)

(** The patterns searched for, in order. *)
Fixpoint searches (t : list event) : list string :=
  match t with
  | [] => []
  | GlobSearch pattern :: t' => pattern :: searches t'
  | _ :: t' => searches t'
  end.

(** The lines written to the console, in order. *)
Fixpoint console_lines (t : list event) : list string :=
  match t with
  | [] => []
  | ConsoleLog msg :: t' => msg :: console_lines t'
  | _ :: t' => console_lines t'
  end.

(** The window and channel of each message sent, in order. *)
Fixpoint recipients (t : list event) : list (BrowserWindow * string) :=
  match t with
  | [] => []
  | WebContentsSend w channel _ :: t' => (w, channel) :: recipients t'
  | _ :: t' => recipients t'
  end.

(** ** The renderer ([App]) *)

Module App.
(** [useState<string>("")] *)
Definition initial : string := "".

(** The listener [ipcRenderer.on("debug-data", (_, data) => setDebugData(data))]
    in the renderer of window [w]: a message sent to [w] on that channel
    replaces the state; nothing else reaches the listener. *)
Definition listen (w : BrowserWindow) (debugData : string) (e : event) : string :=
  match e with
  | WebContentsSend w' channel data =>
      if Nat.eqb w' w && String.eqb channel "debug-data" then data else debugData
  | _ => debugData
  end.

(** The state once the events of [t] have happened. *)
Definition after (w : BrowserWindow) (t : list event) : string :=
  fold_left (listen w) t initial.

(** The text of [<span>Data: {debugData}</span>]. *)
Definition shown (debugData : string) : string := ("Data: " ++ debugData)%string.
End App.

(** ** Relations between stored sets *)

Definition is_null {A : Type} (x : nullable A) : bool :=
  match x with
  | null => true
  | val _ => false
  end.

(** Two stored sets that differ at most in the beatmaps after the first. *)
Definition same_primary (a b : BeatmapSet.t) : Prop :=
  BeatmapSet.OnlineID a = BeatmapSet.OnlineID b /\
  BeatmapSet.Hash a = BeatmapSet.Hash b /\
  BeatmapSet.Files a = BeatmapSet.Files b /\
  at_ (BeatmapSet.Beatmaps a) 0 = at_ (BeatmapSet.Beatmaps b) 0.

(** Two stored sets that differ at most in the order of their [Files], no two
    of which have the same name. *)
Definition same_files_reordered (a b : BeatmapSet.t) : Prop :=
  BeatmapSet.OnlineID a = BeatmapSet.OnlineID b /\
  BeatmapSet.Hash a = BeatmapSet.Hash b /\
  BeatmapSet.Beatmaps a = BeatmapSet.Beatmaps b /\
  Permutation (BeatmapSet.Files a) (BeatmapSet.Files b) /\
  NoDup (map RealmNamedFileUsage.Filename (BeatmapSet.Files a)).

(** ** Stores with corner cases *)

Module Corner.
(** A file usage without a name. *)
Definition nameless (hash : string) : RealmNamedFileUsage.t :=
  {| RealmNamedFileUsage.File := {| File.Hash := val hash |};
     RealmNamedFileUsage.Filename := null |}.

(** A file usage whose file has no hash. *)
Definition hashless (name : string) : RealmNamedFileUsage.t :=
  {| RealmNamedFileUsage.File := {| File.Hash := null |};
     RealmNamedFileUsage.Filename := val name |}.

(** No beatmap, and two file usages without a name. *)
Definition set_unnamed : BeatmapSet.t :=
  {| BeatmapSet.Beatmaps := [];
     BeatmapSet.OnlineID := 9;
     BeatmapSet.Hash := val "9999";
     BeatmapSet.Files :=
       [Example.usage "a.mp3" "1234abcd"; nameless "00ff"; nameless "11ee"] |}.

(** The audio file name is filed twice, under two hashes. *)
Definition set_twice : BeatmapSet.t :=
  {| BeatmapSet.Beatmaps :=
       [Example.beatmap "Twice" (val "a.mp3") (val "a.png") 90%float 120%float];
     BeatmapSet.OnlineID := 10;
     BeatmapSet.Hash := val "1010";
     BeatmapSet.Files :=
       [Example.usage "a.png" "c0ffee"; Example.usage "a.mp3" "aaaa";
        Example.usage "a.mp3" "bbbb"] |}.

(** The audio file is filed, its hash is missing. *)
Definition set_hashless : BeatmapSet.t :=
  {| BeatmapSet.Beatmaps :=
       [Example.beatmap "Hashless" (val "a.mp3") null 90%float 120%float];
     BeatmapSet.OnlineID := 11;
     BeatmapSet.Hash := val "1111";
     BeatmapSet.Files := [hashless "a.mp3"] |}.

(** [set_two] of the examples with a third difficulty. *)
Definition set_three : BeatmapSet.t :=
  {| BeatmapSet.Beatmaps :=
       BeatmapSet.Beatmaps Example.set_two
       ++ [Example.beatmap "Third" (val "c.mp3") (val "c.png") 3%float 4%float];
     BeatmapSet.OnlineID := 7;
     BeatmapSet.Hash := val "0a1b";
     BeatmapSet.Files := BeatmapSet.Files Example.set_two |}.

(** [set_two] of the examples, its [Files] in the other order. *)
Definition set_two_refiled : BeatmapSet.t :=
  {| BeatmapSet.Beatmaps := BeatmapSet.Beatmaps Example.set_two;
     BeatmapSet.OnlineID := 7;
     BeatmapSet.Hash := val "0a1b";
     BeatmapSet.Files := rev (BeatmapSet.Files Example.set_two) |}.

(** The primary beatmap names two files, neither of which is filed; a file
    usage without a name is. *)
Definition set_unfiled : BeatmapSet.t :=
  {| BeatmapSet.Beatmaps :=
       [Example.beatmap "Unfiled" (val "x.mp3") (val "x.png") 90%float 120%float];
     BeatmapSet.OnlineID := 12;
     BeatmapSet.Hash := val "1212";
     BeatmapSet.Files := [nameless "00ff"; Example.usage "other.mp3" "abcd"] |}.

(** A machine whose store cannot be opened. *)
Definition locked_machine : Env :=
  {| appData := "/home/user/.config";
     join := posix_join;
     glob_matches := fun _ => [];
     realm_open := fun _ => Throw (Error "Unable to open a realm at path.") |}.

(** A machine whose glob answers with backslash separators. *)
Definition windows_machine : Env :=
  {| appData := "C:/Users/user/AppData/Roaming";
     join := posix_join;
     glob_matches := fun pattern =>
       if String.eqb pattern "C:/Users/user/AppData/Roaming/osu/files/a/aa/aaaa"
       then ["C:\Users\user\AppData\Roaming\osu\files\a\aa\aaaa"]
       else [];
     realm_open := fun _ => Return [set_twice] |}.
End Corner.

(** ** The monad *)

Lemma bind_ret_l {A B} (a : A) (k : A -> IO B) : bind (ret a) k = k a.
Proof. unfold bind, ret. destruct (k a) as [r t]. reflexivity. Qed.

Lemma bind_Return {A B} (a : A) (t : list event) (k : A -> IO B) :
  bind (Return a, t) k = (fst (k a), t ++ snd (k a)).
Proof. unfold bind. destruct (k a). reflexivity. Qed.

Lemma sendDebugData_run (this : OsuLazerDatabase) (data : string) :
  sendDebugData this data = (Return tt, sent this data).
Proof. unfold sendDebugData, sent. destruct (window this); reflexivity. Qed.

Lemma objects_live (conn : Realm.t) :
  Realm.isClosed conn = false -> Realm.objects conn = ret (Realm.sets conn).
Proof. unfold Realm.objects. intros ->. reflexivity. Qed.

(** ** The loop *)

Section Loop.
Variable env : Env.
Variable this : OsuLazerDatabase.
Variable conn : Realm.t.
Hypothesis live : Realm.isClosed conn = false.

Lemma loop_body_run (set : BeatmapSet.t) (data : list OsuBeatmapData) (count : nat) :
  loop_body env this conn set (data, count) =
  (Return (data ++ [extracted_of env set], S count),
   turn_trace env this (List.length (Realm.sets conn)) (S count) set).
Proof.
  unfold loop_body, turn_trace, sent, sendDebugData.
  rewrite (objects_live conn live).
  destruct (Nat.eqb (S count mod 50) 0); destruct (window this); reflexivity.
Qed.

Lemma for_of_run (sets : list BeatmapSet.t) (data : list OsuBeatmapData) (count : nat) :
  for_of sets (loop_body env this conn) (data, count) =
  (Return (data ++ map (extracted_of env) sets, count + List.length sets),
   loop_trace env this (List.length (Realm.sets conn)) count sets).
Proof.
  revert data count.
  induction sets as [|set rest IH]; intros data count; cbn [for_of map loop_trace].
  - unfold ret. rewrite app_nil_r, Nat.add_0_r. reflexivity.
  - rewrite loop_body_run, bind_Return, IH. cbn [fst snd List.length].
    rewrite <- app_assoc, Nat.add_succ_r. reflexivity.
Qed.

Hypothesis connected : connection this = defined conn.

Lemma getAsBeatmapData_run :
  getAsBeatmapData env this =
  (Return (map (extracted_of env) (Realm.sets conn)),
   loop_trace env this (List.length (Realm.sets conn)) 0 (Realm.sets conn)
   ++ sent this "Data loaded.").
Proof.
  unfold getAsBeatmapData. rewrite connected, (objects_live conn live), bind_ret_l.
  rewrite for_of_run, bind_Return, sendDebugData_run, bind_Return.
  cbn [fst snd ret app]. rewrite app_nil_r. reflexivity.
Qed.

End Loop.

(** The records a pass returns on a live connection. *)
Lemma getAsBeatmapData_data (env : Env) (this : OsuLazerDatabase) (conn : Realm.t) :
  connection this = defined conn ->
  Realm.isClosed conn = false ->
  fst (getAsBeatmapData env this) = Return (map (extracted_of env) (Realm.sets conn)).
Proof.
  intros connected live. rewrite (@getAsBeatmapData_run env this conn live connected). reflexivity.
Qed.

Lemma nth_error_extracted (env : Env) (sets : list BeatmapSet.t) (i : nat)
    (set : BeatmapSet.t) :
  nth_error sets i = Some set ->
  nth_error (map (extracted_of env) sets) i = Some (extracted_of env set).
Proof. intros H. rewrite nth_error_map, H. reflexivity. Qed.

(** ** The primary beatmap *)

(** C1.  On a live connection, the record extracted for a stored set whose
    [Beatmaps] start with [b] has the artist, title (both scripts), tags,
    duration and tempo of [b] and of [b]'s metadata, whatever beatmaps
    follow [b]. *)
Theorem primary_is_first_beatmap (env : Env) (this : OsuLazerDatabase) (conn : Realm.t)
    (i : nat) (set : BeatmapSet.t) (b : Beatmap.t) (others : list Beatmap.t) :
  connection this = defined conn ->
  Realm.isClosed conn = false ->
  nth_error (Realm.sets conn) i = Some set ->
  BeatmapSet.Beatmaps set = b :: others ->
  exists data r,
    fst (getAsBeatmapData env this) = Return data /\
    nth_error data i = Some r /\
    artist r = defined (BeatmapMetadata.Artist (Beatmap.Metadata b)) /\
    artist_unicode r = defined (BeatmapMetadata.ArtistUnicode (Beatmap.Metadata b)) /\
    title r = defined (BeatmapMetadata.Title (Beatmap.Metadata b)) /\
    title_unicode r = defined (BeatmapMetadata.TitleUnicode (Beatmap.Metadata b)) /\
    tags r = defined (BeatmapMetadata.Tags (Beatmap.Metadata b)) /\
    total_time r = defined (Beatmap.Length b) /\
    bpm r = defined (Beatmap.BPM b).
Proof.
  intros connected live stored starts.
  exists (map (extracted_of env) (Realm.sets conn)), (extracted_of env set).
  split; [exact (@getAsBeatmapData_data env this conn connected live)|].
  split; [exact (@nth_error_extracted env _ _ _ stored)|].
  unfold extracted_of, primary, at_. rewrite starts. cbn.
  repeat split; reflexivity.
Qed.

Lemma primary_is_first_beatmap_witness :
  nth_error (Realm.sets (Example.live [Example.set_empty; Example.set_two])) 1
    = Some Example.set_two /\
  exists data r,
    fst (getAsBeatmapData (Example.machine [] [])
           (Example.database undefined [Example.set_empty; Example.set_two]))
      = Return data /\
    nth_error data 1 = Some r /\
    artist r = defined (val "xi") /\
    artist_unicode r = defined (val "xi") /\
    title r = defined (val "Freedom Dive") /\
    title_unicode r = defined (val "Freedom Dive") /\
    tags r = defined null /\
    total_time r = defined 257.5%float /\
    bpm r = defined 222.25%float.
Proof.
  split; [reflexivity|].
  exact (@primary_is_first_beatmap (Example.machine [] [])
           (Example.database undefined [Example.set_empty; Example.set_two])
           _ 1 _ _ _ eq_refl eq_refl eq_refl eq_refl).
Defined.

(** ** The end-to-end scenario *)

(** C2.  A store with the one set 42 / "abc", whose one beatmap (180.5 s,
    174 BPM) names "track.mp3" and "bg.jpg", filed under the hashes "deadbeef"
    and "f00dface", on a machine where only
    [/home/user/.config/osu/files/d/de/deadbeef] exists: opening the store
    and extracting returns exactly one record, with the fields the scenario
    lists and an undefined background path. *)
Theorem end_to_end_scenario (ttl ttl_unicode art art_unicode tgs : nullable string)
    (path : string) (w : optional BrowserWindow) :
  let env :=
    Example.machine [Example.deadbeef_path]
      [Example.set42 ttl ttl_unicode art art_unicode tgs] in
  fst (db <- open env path w ;; getAsBeatmapData env db) =
  Return
    [ {| id := 42;
         artist := defined art;
         artist_unicode := defined art_unicode;
         title := defined ttl;
         title_unicode := defined ttl_unicode;
         hash := defined (val "abc");
         audio := defined (val "track.mp3");
         audio_hash := defined (val "deadbeef");
         audio_path := defined "/home/user/.config/osu/files/d/de/deadbeef";
         background := defined (val "bg.jpg");
         background_hash := defined (val "f00dface");
         background_path := undefined;
         tags := defined tgs;
         total_time := defined 180.5%float;
         bpm := defined 174%float |} ].
Proof. destruct w; reflexivity. Qed.

(** ** The connection check *)

(** C8.  Without a connection, [getAsBeatmapData] and [getObjects] throw the
    "open connection at first" error before anything else happens: the trace
    is empty (no record read, no search, no message) and no data is returned. *)
Theorem not_connected_checked_first (env : Env) (this : OsuLazerDatabase)
    (type : string) :
  connection this = undefined ->
  getAsBeatmapData env this = (Throw not_connected, []) /\
  getObjects this type = (Throw not_connected, []).
Proof.
  intros H. unfold getAsBeatmapData, getObjects. rewrite H. split; reflexivity.
Qed.

Lemma not_connected_checked_first_witness :
  connection (constructor (defined 1)) = undefined /\
  getAsBeatmapData (Example.machine [] [Example.set_two]) (constructor (defined 1))
    = (Throw (Error "You should open connection at first."), []) /\
  getObjects (constructor (defined 1)) "BeatmapSet"
    = (Throw (Error "You should open connection at first."), []).
Proof.
  split; [reflexivity|].
  exact (@not_connected_checked_first (Example.machine [] [Example.set_two])
           (constructor (defined 1)) "BeatmapSet" eq_refl).
Defined.

(** C9.  [close] keeps the connection field: after it the field still holds
    the (now closed) Realm, so [getAsBeatmapData] and [getObjects] pass the
    connection check and go on to the closed Realm, whose refusal is what they
    throw, not the "open connection at first" error. *)
Theorem close_keeps_connection (env : Env) (this : OsuLazerDatabase) (conn : Realm.t)
    (type : string) :
  connection this = defined conn ->
  connection (close this) = defined (Realm.close conn) /\
  getAsBeatmapData env (close this)
    = (sets <- Realm.objects (Realm.close conn) ;;
       s <- for_of sets (loop_body env (close this) (Realm.close conn)) ([], 0) ;;
       sendDebugData (close this) "Data loaded." ;;;
       ret (fst s)) /\
  getObjects (close this) type = Realm.objects_named (Realm.close conn) type /\
  fst (getAsBeatmapData env (close this)) = Throw Realm.closed_error /\
  fst (getObjects (close this) type) = Throw Realm.closed_error /\
  Realm.closed_error <> not_connected.
Proof.
  intros H.
  assert (C : connection (close this) = defined (Realm.close conn))
    by (unfold close; rewrite H; reflexivity).
  unfold getAsBeatmapData, getObjects. rewrite C.
  repeat split; try reflexivity. discriminate.
Qed.

Lemma close_keeps_connection_witness :
  connection (Example.database undefined [Example.set_two])
    = defined (Example.live [Example.set_two]) /\
  connection (close (Example.database undefined [Example.set_two]))
    = defined {| Realm.sets := [Example.set_two]; Realm.isClosed := true |} /\
  fst (getAsBeatmapData (Example.machine [] [])
         (close (Example.database undefined [Example.set_two])))
    = Throw (Error "Cannot access realm that has been closed.") /\
  fst (getObjects (close (Example.database undefined [Example.set_two])) "BeatmapSet")
    = Throw (Error "Cannot access realm that has been closed.").
Proof.
  split; [reflexivity|].
  pose proof (@close_keeps_connection (Example.machine [] [])
                (Example.database undefined [Example.set_two]) _ "BeatmapSet" eq_refl)
    as (K & _ & _ & G & O & _).
  exact (conj K (conj G O)).
Defined.

(** ** A database without a window *)

Lemma sent_data_app (t u : list event) : sent_data (t ++ u) = sent_data t ++ sent_data u.
Proof.
  induction t as [|e t IH]; [reflexivity|].
  destruct e; cbn; rewrite IH; reflexivity.
Qed.

Lemma sent_data_sent (this : OsuLazerDatabase) (data : string) :
  sent_data (sent this data) =
  match window this with defined _ => [data] | undefined => [] end.
Proof. unfold sent. destruct (window this); reflexivity. Qed.

Lemma sent_data_turn (env : Env) (this : OsuLazerDatabase) (total k : nat)
    (set : BeatmapSet.t) :
  sent_data (turn_trace env this total k set) =
  if Nat.eqb (k mod 50) 0
  then match window this with
       | defined _ => [loading_message env set k total]
       | undefined => []
       end
  else [].
Proof.
  unfold turn_trace. cbn [app sent_data]. rewrite sent_data_app.
  destruct (Nat.eqb (k mod 50) 0).
  - rewrite sent_data_sent. cbn. apply app_nil_r.
  - reflexivity.
Qed.




(** ** Resolving a hash to a path *)

Lemma glob_pattern_undefined (env : Env) :
  glob_pattern env undefined =
  (join env [appData env; "osu"; "files"] ++ "/undefined/undefined/undefined")%string.
Proof. reflexivity. Qed.

Lemma glob_pattern_string (env : Env) (h : string) :
  glob_pattern env (defined (val h)) =
  (join env [appData env; "osu"; "files"] ++ "/" ++ substring 0 1 h ++ "/" ++
   substring 0 2 h ++ "/" ++ h)%string.
Proof. reflexivity. Qed.

Lemma glob_paths_run (env : Env) (h : optional (nullable string)) :
  glob_paths env h = (Return (resolved_paths env h), [GlobSearch (glob_pattern env h)]).
Proof. reflexivity. Qed.

Lemma replace_backslashes_clean (s : string) :
  has_backslash (replace_backslashes s) = false.
Proof.
  induction s as [|c s IH]; [reflexivity|].
  cbn [replace_backslashes has_backslash]. rewrite IH, orb_false_r.
  destruct (Ascii.eqb c "\"%char) eqn:E; [reflexivity|exact E].
Qed.

Lemma resolved_paths_clean (env : Env) (h : optional (nullable string)) :
  Forall (fun p => has_backslash p = false) (resolved_paths env h).
Proof.
  unfold resolved_paths. apply Forall_forall. intros p Hp.
  apply in_map_iff in Hp as (q & <- & _). apply replace_backslashes_clean.
Qed.

(** C4, as the code has it.  Resolving an [undefined] hash does not throw, and
    it does search: exactly once, for the pattern
    [<appData>/osu/files/undefined/undefined/undefined]; it returns the matches
    of that search, separators replaced, hence the empty sequence whenever
    nothing matches that pattern. *)
Theorem undefined_hash_is_searched (env : Env) :
  let pattern :=
    (join env [appData env; "osu"; "files"] ++ "/undefined/undefined/undefined")%string in
  glob_paths env undefined =
    (Return (map replace_backslashes (glob_matches env pattern)), [GlobSearch pattern]) /\
  (glob_matches env pattern = [] -> glob_paths env undefined = (Return [], [GlobSearch pattern])).
Proof.
  cbv zeta. rewrite glob_paths_run. unfold resolved_paths.
  rewrite glob_pattern_undefined. split; [reflexivity|].
  intros ->. reflexivity.
Qed.

(** C4 as stated fails: on a machine that holds a file [undefined] in the shard
    [undefined/undefined], resolving an [undefined] hash returns that file, and
    on any machine a search is issued. *)
Lemma undefined_hash_counterexample :
  glob_paths (Example.machine [Example.undefined_path] []) undefined =
    (Return ["/home/user/.config/osu/files/undefined/undefined/undefined"],
     [GlobSearch "/home/user/.config/osu/files/undefined/undefined/undefined"]) /\
  snd (glob_paths (Example.machine [] []) undefined) =
    [GlobSearch "/home/user/.config/osu/files/undefined/undefined/undefined"].
Proof. split; reflexivity. Qed.

(** ** Sets with gaps *)

Lemma find_no_match {A : Type} (p : A -> bool) (xs : list A) :
  (forall x, In x xs -> p x = false) -> find_ p xs = undefined.
Proof.
  unfold find_. induction xs as [|x xs IH]; intros H; [reflexivity|].
  cbn [find]. rewrite (H x (or_introl eq_refl)).
  apply IH. intros y Hy. apply H. right. exact Hy.
Qed.

Lemma file_hash_no_match (files : list RealmNamedFileUsage.t)
    (name : optional (nullable string)) :
  (forall f, In f files -> loose_eq (RealmNamedFileUsage.Filename f) name = false) ->
  file_hash files name = undefined.
Proof.
  intros H. unfold file_hash.
  rewrite (find_no_match (fun f => loose_eq (RealmNamedFileUsage.Filename f) name) files H).
  reflexivity.
Qed.

(** C3, as the code has it.  On a live connection the pass returns, with one
    record per stored set.  The audio and background names of a record are
    those of the metadata of the set's first beatmap, [undefined] without
    one.  In the record of a set without beatmaps the fields read from the
    primary beatmap are [undefined].  When no file usage of the set has a name
    [==] to the metadata's audio (background) file name, the audio
    (background) hash is [undefined] and the path is the first match of the
    search for [<appData>/osu/files/undefined/undefined/undefined]:
    [undefined] whenever nothing matches that pattern. *)
Theorem soft_gaps_absorbed (env : Env) (this : OsuLazerDatabase) (conn : Realm.t) :
  connection this = defined conn ->
  Realm.isClosed conn = false ->
  let pattern :=
    (join env [appData env; "osu"; "files"] ++ "/undefined/undefined/undefined")%string in
  exists data,
    fst (getAsBeatmapData env this) = Return data /\
    List.length data = List.length (Realm.sets conn) /\
    forall i set, nth_error (Realm.sets conn) i = Some set ->
      let audio_file :=
        chain (at_ (BeatmapSet.Beatmaps set) 0)
          (fun b => BeatmapMetadata.AudioFile (Beatmap.Metadata b)) in
      let background_file :=
        chain (at_ (BeatmapSet.Beatmaps set) 0)
          (fun b => BeatmapMetadata.BackgroundFile (Beatmap.Metadata b)) in
      exists r,
        nth_error data i = Some r /\
        audio r = audio_file /\
        background r = background_file /\
        (BeatmapSet.Beatmaps set = [] ->
         artist r = undefined /\ artist_unicode r = undefined /\
         title r = undefined /\ title_unicode r = undefined /\
         tags r = undefined /\ total_time r = undefined /\ bpm r = undefined /\
         audio r = undefined /\ background r = undefined) /\
        ((forall f, In f (BeatmapSet.Files set) ->
            loose_eq (RealmNamedFileUsage.Filename f) audio_file = false) ->
         audio_hash r = undefined /\
         audio_path r = at_ (map replace_backslashes (glob_matches env pattern)) 0 /\
         (glob_matches env pattern = [] -> audio_path r = undefined)) /\
        ((forall f, In f (BeatmapSet.Files set) ->
            loose_eq (RealmNamedFileUsage.Filename f) background_file = false) ->
         background_hash r = undefined /\
         background_path r = at_ (map replace_backslashes (glob_matches env pattern)) 0 /\
         (glob_matches env pattern = [] -> background_path r = undefined)).
Proof.
  intros connected live. cbv zeta. rewrite <- glob_pattern_undefined.
  exists (map (extracted_of env) (Realm.sets conn)).
  split; [exact (getAsBeatmapData_data env this conn connected live)|].
  split; [apply length_map|].
  intros i set stored. exists (extracted_of env set).
  split; [exact (nth_error_extracted env _ _ _ stored)|].
  split; [reflexivity|]. split; [reflexivity|].
  split; [|split].
  - intros E. unfold extracted_of, audio_name, background_name, primary, at_.
    rewrite E. cbn. repeat split; reflexivity.
  - cbn [extracted_of audio_hash audio_path]. intros H.
    fold (primary set) in H. fold (audio_name set) in H.
    rewrite (file_hash_no_match _ _ H). fold (resolved_paths env undefined).
    repeat split. unfold resolved_paths. intros ->. reflexivity.
  - cbn [extracted_of background_hash background_path]. intros H.
    fold (primary set) in H. fold (background_name set) in H.
    rewrite (file_hash_no_match _ _ H). fold (resolved_paths env undefined).
    repeat split. unfold resolved_paths. intros ->. reflexivity.
Qed.

Lemma soft_gaps_absorbed_witness :
  connection (Example.database (defined 1) [Example.set_empty; Corner.set_unfiled])
    = defined (Example.live [Example.set_empty; Corner.set_unfiled]) /\
  exists data,
    fst (getAsBeatmapData (Example.machine [] [])
           (Example.database (defined 1) [Example.set_empty; Corner.set_unfiled]))
      = Return data /\
    List.length data = 2 /\
    (exists r,
       nth_error data 0 = Some r /\
       artist r = undefined /\ title r = undefined /\ total_time r = undefined /\
       audio r = undefined /\ audio_hash r = undefined /\ audio_path r = undefined /\
       background r = undefined /\ background_hash r = undefined /\
       background_path r = undefined) /\
    (exists r,
       nth_error data 1 = Some r /\
       audio r = defined (val "x.mp3") /\ audio_hash r = undefined /\
       audio_path r = undefined /\
       background r = defined (val "x.png") /\ background_hash r = undefined /\
       background_path r = undefined).
Proof.
  split; [reflexivity|].
  destruct (soft_gaps_absorbed (Example.machine [] [])
              (Example.database (defined 1) [Example.set_empty; Corner.set_unfiled])
              _ eq_refl eq_refl) as (data & R & L & each).
  exists data. split; [exact R|]. split; [exact L|].
  destruct (each 0 Example.set_empty eq_refl) as (r0 & N0 & A0 & B0 & G0 & HA0 & HB0).
  destruct (each 1 Corner.set_unfiled eq_refl) as (r1 & N1 & A1 & B1 & _ & HA1 & HB1).
  destruct (G0 eq_refl) as (g1 & _ & g3 & _ & _ & g6 & _ & g8 & g9).
  assert (no_audio0 : forall f, In f (BeatmapSet.Files Example.set_empty) ->
            loose_eq (RealmNamedFileUsage.Filename f) undefined = false)
    by (intros f [<-|[]]; reflexivity).
  assert (no_audio1 : forall f, In f (BeatmapSet.Files Corner.set_unfiled) ->
            loose_eq (RealmNamedFileUsage.Filename f) (defined (val "x.mp3")) = false)
    by (intros f [<-|[<-|[]]]; reflexivity).
  assert (no_background1 : forall f, In f (BeatmapSet.Files Corner.set_unfiled) ->
            loose_eq (RealmNamedFileUsage.Filename f) (defined (val "x.png")) = false)
    by (intros f [<-|[<-|[]]]; reflexivity).
  destruct (HA0 no_audio0) as (ha0 & _ & pa0).
  destruct (HB0 no_audio0) as (hb0 & _ & pb0).
  destruct (HA1 no_audio1) as (ha1 & _ & pa1).
  destruct (HB1 no_background1) as (hb1 & _ & pb1).
  split.
  - exists r0. repeat split; try assumption; try (apply pa0; reflexivity);
      apply pb0; reflexivity.
  - exists r1. repeat split; try assumption; try (apply pa1; reflexivity);
      apply pb1; reflexivity.
Defined.

(** C3 as stated fails: [set_empty] has no beatmap and no file usage whose
    name [==] [undefined], yet on a machine that holds the file
    [undefined/undefined/undefined] its record has both paths defined. *)
Lemma soft_gaps_counterexample :
  BeatmapSet.Beatmaps Example.set_empty = [] /\
  forallb (fun f => negb (loose_eq (RealmNamedFileUsage.Filename f) undefined))
    (BeatmapSet.Files Example.set_empty) = true /\
  exists r,
    fst (getAsBeatmapData (Example.machine [Example.undefined_path] [])
           (Example.database undefined [Example.set_empty])) = Return [r] /\
    audio r = undefined /\
    audio_hash r = undefined /\
    audio_path r = defined "/home/user/.config/osu/files/undefined/undefined/undefined" /\
    background r = undefined /\
    background_hash r = undefined /\
    background_path r
      = defined "/home/user/.config/osu/files/undefined/undefined/undefined".
Proof.
  split; [reflexivity|]. split; [reflexivity|].
  eexists. split; [reflexivity|]. repeat split; reflexivity.
Qed.

(** ** Progress messages *)

(** The counter values between 1 and [n] at which a message is due. *)
Lemma multiples_of_50 (n : nat) :
  filter (fun k => Nat.eqb (k mod 50) 0) (seq 1 n) = map (Nat.mul 50) (seq 1 (n / 50)).
Proof.
  induction n as [|n IH]; [reflexivity|].
  rewrite seq_S, filter_app, IH. cbn [filter Nat.add].
  pose proof (Nat.div_mod_eq n 50) as Dn.
  pose proof (Nat.div_mod_eq (S n) 50) as DS.
  pose proof (Nat.mod_upper_bound n 50 ltac:(discriminate)) as Bn.
  pose proof (Nat.mod_upper_bound (S n) 50 ltac:(discriminate)) as BS.
  destruct (Nat.eqb (S n mod 50) 0) eqn:E.
  - apply Nat.eqb_eq in E.
    assert (Q : S n / 50 = S (n / 50)) by lia.
    rewrite Q, seq_S, map_app. cbn [map Nat.add].
    replace (50 * S (n / 50)) with (S n) by lia. reflexivity.
  - apply Nat.eqb_neq in E.
    assert (Q : S n / 50 = n / 50) by lia.
    rewrite Q. apply app_nil_r.
Qed.

Section Progress.
Variable env : Env.
Variable this : OsuLazerDatabase.
Variable w : BrowserWindow.
Hypothesis attached : window this = defined w.
Variable total : nat.

Lemma sent_data_loop (sets : list BeatmapSet.t) (count : nat) :
  sent_data (loop_trace env this total count sets) =
  map (message_at env total count sets)
    (filter (fun k => Nat.eqb (k mod 50) 0) (seq (S count) (List.length sets))).
Proof.
  revert count.
  induction sets as [|set rest IH]; intros count; [reflexivity|].
  cbn [loop_trace List.length seq filter].
  rewrite sent_data_app, sent_data_turn, attached, IH.
  assert (T : map (message_at env total (S count) rest)
                (filter (fun k => Nat.eqb (k mod 50) 0)
                   (seq (S (S count)) (List.length rest)))
            = map (message_at env total count (set :: rest))
                (filter (fun k => Nat.eqb (k mod 50) 0)
                   (seq (S (S count)) (List.length rest)))).
  { apply map_ext_in. intros k Hk.
    apply filter_In in Hk as [Hk _]. apply in_seq in Hk.
    unfold message_at.
    replace (k - S count) with (S (k - S (S count))) by lia. reflexivity. }
  rewrite T.
  destruct (Nat.eqb (S count mod 50) 0); [|reflexivity].
  cbn [map app]. unfold message_at at 2. rewrite Nat.sub_diag. reflexivity.
Qed.

End Progress.

(** C5, as the code has it.  With a window attached, a pass over [N] stored
    sets sends [N / 50] progress messages and then "Data loaded.", for every
    [N]; the [j]-th progress message carries the counter [50 * j] out of [N]
    and the title of the record just extracted, the [50 * j]-th. *)
Theorem progress_cadence (env : Env) (this : OsuLazerDatabase) (conn : Realm.t)
    (w : BrowserWindow) :
  connection this = defined conn ->
  Realm.isClosed conn = false ->
  window this = defined w ->
  let N := List.length (Realm.sets conn) in
  exists data progress,
    fst (getAsBeatmapData env this) = Return data /\
    sent_data (snd (getAsBeatmapData env this)) = progress ++ ["Data loaded."] /\
    List.length progress = N / 50 /\
    Forall2
      (fun k message =>
         exists r,
           nth_error data (k - 1) = Some r /\
           message =
           ("Loading: " ++ to_str (title r) ++ " (" ++ to_str k ++ " / " ++
            to_str N ++ ")")%string)
      (map (Nat.mul 50) (seq 1 (N / 50))) progress.
Proof.
  intros connected live attached N.
  exists (map (extracted_of env) (Realm.sets conn)).
  exists (sent_data (loop_trace env this N 0 (Realm.sets conn))).
  rewrite (getAsBeatmapData_run env this conn live connected). cbn [fst snd].
  split; [reflexivity|].
  split; [rewrite sent_data_app, sent_data_sent, attached; reflexivity|].
  rewrite (sent_data_loop env this w attached N), multiples_of_50.
  fold N. split; [rewrite !length_map; apply length_seq|].
  set (ks := seq 1 (N / 50)).
  assert (In_ks : forall j, In j ks -> 1 <= j /\ 50 * j <= N).
  { intros j Hj. apply in_seq in Hj.
    pose proof (Nat.Div0.mul_div_le N 50). lia. }
  clearbody ks. induction ks as [|j ks IH]; [constructor|].
  cbn [map]. constructor.
  - destruct (In_ks j (or_introl eq_refl)) as [J1 J2].
    unfold message_at.
    destruct (nth_error (Realm.sets conn) (50 * j - 1)) as [set|] eqn:E.
    + exists (extracted_of env set). split; [|reflexivity].
      apply nth_error_extracted. exact E.
    + apply nth_error_None in E. fold N in E. lia.
  - apply IH. intros k Hk. apply In_ks. right. exact Hk.
Qed.

Lemma progress_cadence_witness :
  window (Example.database (defined 1) (repeat Example.set_two 101)) = defined 1 /\
  exists data progress,
    fst (getAsBeatmapData (Example.machine [] [])
           (Example.database (defined 1) (repeat Example.set_two 101))) = Return data /\
    sent_data (snd (getAsBeatmapData (Example.machine [] [])
                      (Example.database (defined 1) (repeat Example.set_two 101))))
      = progress ++ ["Data loaded."] /\
    List.length progress = 2.
Proof.
  split; [reflexivity|].
  destruct (progress_cadence (Example.machine [] [])
              (Example.database (defined 1) (repeat Example.set_two 101))
              _ 1 eq_refl eq_refl eq_refl) as (data & progress & R & S & L & _).
  exact (ex_intro _ data (ex_intro _ progress (conj R (conj S L)))).
Defined.

(** C5 as stated fails for a database without a window: over 50 stored sets,
    where one progress message and "Data loaded." are due, nothing is sent. *)
Lemma progress_cadence_counterexample :
  List.length (Realm.sets (Example.live (repeat Example.set_two 50))) / 50 = 1 /\
  fst (getAsBeatmapData (Example.machine [] [])
         (Example.database undefined (repeat Example.set_two 50)))
    = Return (repeat (extracted_of (Example.machine [] []) Example.set_two) 50) /\
  sent_data (snd (getAsBeatmapData (Example.machine [] [])
                    (Example.database undefined (repeat Example.set_two 50)))) = [].
Proof. repeat split; vm_compute; reflexivity. Qed.

(** ** Order of the output *)

Lemma set_level_fields (env : Env) (sets : list BeatmapSet.t) :
  map id (map (extracted_of env) sets) = map BeatmapSet.OnlineID sets /\
  map hash (map (extracted_of env) sets)
    = map (fun set => defined (BeatmapSet.Hash set)) sets.
Proof. rewrite !map_map. split; reflexivity. Qed.

Lemma permuted_within_fields (sets sets' : list BeatmapSet.t) :
  Forall2 permuted_within sets sets' ->
  map BeatmapSet.OnlineID sets = map BeatmapSet.OnlineID sets' /\
  map (fun set => defined (BeatmapSet.Hash set)) sets
    = map (fun set => defined (BeatmapSet.Hash set)) sets'.
Proof.
  induction 1 as [|a b sets sets' (I & H & _) _ [IHi IHh]]; [split; reflexivity|].
  cbn [map]. rewrite I, H, IHi, IHh. split; reflexivity.
Qed.

(** C6.  On a live connection the [i]-th record returned is the one
    extracted from the [i]-th stored set, so ids and hashes come out in
    storage order; and a store that differs only by the order of the
    [Beatmaps] and [Files] inside its sets yields as many records, with the
    same ids and hashes at the same positions. *)
Theorem output_in_storage_order (env : Env) (this this' : OsuLazerDatabase)
    (conn conn' : Realm.t) :
  connection this = defined conn ->
  Realm.isClosed conn = false ->
  connection this' = defined conn' ->
  Realm.isClosed conn' = false ->
  Forall2 permuted_within (Realm.sets conn) (Realm.sets conn') ->
  exists data data',
    fst (getAsBeatmapData env this) = Return data /\
    fst (getAsBeatmapData env this') = Return data' /\
    data = map (extracted_of env) (Realm.sets conn) /\
    (forall i, nth_error data i = option_map (extracted_of env) (nth_error (Realm.sets conn) i)) /\
    map id data = map BeatmapSet.OnlineID (Realm.sets conn) /\
    map hash data = map (fun set => defined (BeatmapSet.Hash set)) (Realm.sets conn) /\
    List.length data' = List.length data /\
    map id data' = map id data /\
    map hash data' = map hash data.
Proof.
  intros connected live connected' live' P.
  exists (map (extracted_of env) (Realm.sets conn)).
  exists (map (extracted_of env) (Realm.sets conn')).
  destruct (set_level_fields env (Realm.sets conn)) as [I H].
  destruct (set_level_fields env (Realm.sets conn')) as [I' H'].
  destruct (permuted_within_fields _ _ P) as [PI PH].
  split; [exact (getAsBeatmapData_data env this conn connected live)|].
  split; [exact (getAsBeatmapData_data env this' conn' connected' live')|].
  split; [reflexivity|].
  split; [intros i; apply nth_error_map|].
  split; [exact I|]. split; [exact H|].
  split; [rewrite !length_map; symmetry; exact (Forall2_length P)|].
  split; congruence.
Qed.

Lemma output_in_storage_order_witness :
  Forall2 permuted_within
    [Example.set_empty; Example.set_two] [Example.set_empty; Example.set_two_permuted] /\
  exists data data',
    fst (getAsBeatmapData (Example.machine [] [])
           (Example.database undefined [Example.set_empty; Example.set_two]))
      = Return data /\
    fst (getAsBeatmapData (Example.machine [] [])
           (Example.database undefined [Example.set_empty; Example.set_two_permuted]))
      = Return data' /\
    map id data = [8%Z; 7%Z] /\
    map id data' = map id data /\
    map hash data' = map hash data.
Proof.
  assert (P : Forall2 permuted_within
                [Example.set_empty; Example.set_two]
                [Example.set_empty; Example.set_two_permuted]).
  { repeat constructor; cbn; apply Permutation_rev. }
  split; [exact P|].
  destruct (output_in_storage_order (Example.machine [] [])
              (Example.database undefined [Example.set_empty; Example.set_two])
              (Example.database undefined [Example.set_empty; Example.set_two_permuted])
              _ _ eq_refl eq_refl eq_refl eq_refl P)
    as (data & data' & R & R' & _ & _ & I & _ & _ & I' & H').
  exact (ex_intro _ data (ex_intro _ data' (conj R (conj R' (conj I (conj I' H')))))).
Defined.

(** ** Opening and closing *)

Lemma open_run (env : Env) (path : string) (w : optional BrowserWindow) :
  open env path w =
  match realm_open env path with
  | Return store =>
      (Return {| connection := defined {| Realm.sets := store; Realm.isClosed := false |};
                 window := w |},
       [ConsoleLog "Try to connect realm db..."]
       ++ sent (constructor w) "Try to connect realm db..."
       ++ [ConsoleLog "Connected to realm db."])
  | Throw e =>
      (Throw e,
       [ConsoleLog "Try to connect realm db..."]
       ++ sent (constructor w) "Try to connect realm db...")
  end.
Proof.
  unfold open, Realm_open, sendDebugData, sent. cbn [constructor window].
  destruct (realm_open env path); destruct w; reflexivity.
Qed.

(** When Realm opens the store, [open] returns an instance that holds the live
    connection and the window it was given, having logged the attempt, told
    the window if there is one, and logged the success, in that order; a pass
    on that instance returns one record per stored set, in storage order. *)
Theorem open_connects (env : Env) (path : string) (w : optional BrowserWindow)
    (store : list BeatmapSet.t) :
  realm_open env path = Return store ->
  open env path w =
    (Return {| connection := defined {| Realm.sets := store; Realm.isClosed := false |};
               window := w |},
     [ConsoleLog "Try to connect realm db..."]
     ++ match w with
        | defined w' => [WebContentsSend w' "debug-data" "Try to connect realm db..."]
        | undefined => []
        end
     ++ [ConsoleLog "Connected to realm db."]) /\
  exists data,
    fst (db <- open env path w ;; getAsBeatmapData env db) = Return data /\
    List.length data = List.length store /\
    map id data = map BeatmapSet.OnlineID store.
Proof.
  intros Hopen. rewrite open_run, Hopen. split; [destruct w; reflexivity|].
  exists (map (extracted_of env) store).
  rewrite bind_Return. cbn [fst].
  rewrite (getAsBeatmapData_data env
             {| connection := defined {| Realm.sets := store; Realm.isClosed := false |};
                window := w |}
             {| Realm.sets := store; Realm.isClosed := false |} eq_refl eq_refl).
  cbn [Realm.sets].
  split; [reflexivity|]. split; [apply length_map|].
  rewrite map_map. reflexivity.
Qed.

Lemma open_connects_witness :
  realm_open (Example.machine [] [Example.set_empty; Example.set_two]) "client.realm"
    = Return [Example.set_empty; Example.set_two] /\
  snd (open (Example.machine [] [Example.set_empty; Example.set_two]) "client.realm"
         (defined 1))
    = [ConsoleLog "Try to connect realm db...";
       WebContentsSend 1 "debug-data" "Try to connect realm db...";
       ConsoleLog "Connected to realm db."] /\
  exists data,
    fst (db <- open (Example.machine [] [Example.set_empty; Example.set_two])
                 "client.realm" (defined 1) ;;
         getAsBeatmapData (Example.machine [] [Example.set_empty; Example.set_two]) db)
      = Return data /\
    List.length data = 2 /\
    map id data = [8%Z; 7%Z].
Proof.
  split; [reflexivity|].
  destruct (open_connects (Example.machine [] [Example.set_empty; Example.set_two])
              "client.realm" (defined 1) [Example.set_empty; Example.set_two] eq_refl)
    as [O D].
  split; [exact (f_equal snd O)|exact D].
Defined.

(** When Realm rejects the store, [open] throws Realm's error unchanged and
    returns no instance; the attempt was logged and the window told, the
    success is not logged; a pass chained after it does not start: nothing is
    searched and "Data loaded." is not sent. *)
Theorem open_rejects (env : Env) (path : string) (w : optional BrowserWindow) (e : exn) :
  realm_open env path = Throw e ->
  open env path w =
    (Throw e,
     [ConsoleLog "Try to connect realm db..."]
     ++ match w with
        | defined w' => [WebContentsSend w' "debug-data" "Try to connect realm db..."]
        | undefined => []
        end) /\
  fst (db <- open env path w ;; getAsBeatmapData env db) = Throw e /\
  snd (db <- open env path w ;; getAsBeatmapData env db) = snd (open env path w).
Proof.
  intros Hopen. rewrite open_run, Hopen.
  split; [destruct w; reflexivity|]. split; reflexivity.
Qed.

Lemma open_rejects_witness :
  realm_open Corner.locked_machine "client.realm"
    = Throw (Error "Unable to open a realm at path.") /\
  open Corner.locked_machine "client.realm" (defined 1) =
    (Throw (Error "Unable to open a realm at path."),
     [ConsoleLog "Try to connect realm db...";
      WebContentsSend 1 "debug-data" "Try to connect realm db..."]) /\
  fst (db <- open Corner.locked_machine "client.realm" (defined 1) ;;
       getAsBeatmapData Corner.locked_machine db)
    = Throw (Error "Unable to open a realm at path.").
Proof.
  split; [reflexivity|].
  destruct (open_rejects Corner.locked_machine "client.realm" (defined 1)
              (Error "Unable to open a realm at path.") eq_refl) as (O & F & _).
  exact (conj O F).
Defined.

(** [close] can be repeated: a second [close] changes nothing; it never
    touches the window or the stored sets, and on an instance without a
    connection it does nothing at all. *)
Theorem close_idempotent (this : OsuLazerDatabase) :
  close (close this) = close this /\
  window (close this) = window this /\
  option_map Realm.sets (connection (close this))
    = option_map Realm.sets (connection this) /\
  (connection this = undefined -> close this = this).
Proof.
  unfold close. destruct this as [[conn|] w]; cbn; repeat split; try reflexivity.
  discriminate.
Qed.

(** ** What a pass leaves on the trace *)

Lemma searches_app (t u : list event) : searches (t ++ u) = searches t ++ searches u.
Proof.
  induction t as [|e t IH]; [reflexivity|].
  destruct e; cbn; rewrite IH; reflexivity.
Qed.

Lemma console_lines_app (t u : list event) :
  console_lines (t ++ u) = console_lines t ++ console_lines u.
Proof.
  induction t as [|e t IH]; [reflexivity|].
  destruct e; cbn; rewrite IH; reflexivity.
Qed.

Lemma searches_sent (this : OsuLazerDatabase) (data : string) :
  searches (sent this data) = [].
Proof. unfold sent. destruct (window this); reflexivity. Qed.

Lemma console_lines_sent (this : OsuLazerDatabase) (data : string) :
  console_lines (sent this data) = [].
Proof. unfold sent. destruct (window this); reflexivity. Qed.

Lemma searches_loop (env : Env) (this : OsuLazerDatabase) (total count : nat)
    (sets : list BeatmapSet.t) :
  searches (loop_trace env this total count sets) =
  flat_map (fun r => [glob_pattern env (audio_hash r); glob_pattern env (background_hash r)])
    (map (extracted_of env) sets).
Proof.
  revert count. induction sets as [|set rest IH]; intros count; [reflexivity|].
  cbn [loop_trace map flat_map]. rewrite searches_app, IH. unfold turn_trace.
  cbn [app searches]. rewrite searches_app.
  destruct (Nat.eqb (S count mod 50) 0); [rewrite searches_sent|]; reflexivity.
Qed.

Lemma console_lines_loop (env : Env) (this : OsuLazerDatabase) (total count : nat)
    (sets : list BeatmapSet.t) :
  console_lines (loop_trace env this total count sets) =
  map (fun r => ("Loaded: " ++ to_str (title r))%string) (map (extracted_of env) sets).
Proof.
  revert count. induction sets as [|set rest IH]; intros count; [reflexivity|].
  cbn [loop_trace map]. rewrite console_lines_app, IH. unfold turn_trace.
  cbn [app console_lines]. rewrite console_lines_app.
  destruct (Nat.eqb (S count mod 50) 0); [rewrite console_lines_sent|]; reflexivity.
Qed.

(** A pass searches exactly twice per stored set, first for the audio hash
    and then for the background hash of the record it builds, whether or not
    a hash was found, and set after set in storage order. *)
Theorem two_searches_per_set (env : Env) (this : OsuLazerDatabase) (conn : Realm.t) :
  connection this = defined conn ->
  Realm.isClosed conn = false ->
  exists data,
    fst (getAsBeatmapData env this) = Return data /\
    searches (snd (getAsBeatmapData env this)) =
    flat_map
      (fun r => [glob_pattern env (audio_hash r); glob_pattern env (background_hash r)])
      data /\
    List.length (searches (snd (getAsBeatmapData env this)))
      = 2 * List.length (Realm.sets conn).
Proof.
  intros connected live. exists (map (extracted_of env) (Realm.sets conn)).
  rewrite (getAsBeatmapData_run env this conn live connected). cbn [fst snd].
  rewrite searches_app, searches_sent, app_nil_r, searches_loop.
  split; [reflexivity|]. split; [reflexivity|].
  induction (Realm.sets conn) as [|set rest IH]; [reflexivity|].
  cbn [map flat_map app List.length]. rewrite IH. lia.
Qed.

Lemma two_searches_per_set_witness :
  connection (Example.database undefined [Example.set_empty; Example.set_two])
    = defined (Example.live [Example.set_empty; Example.set_two]) /\
  exists data,
    fst (getAsBeatmapData (Example.machine [] [])
           (Example.database undefined [Example.set_empty; Example.set_two]))
      = Return data /\
    List.length
      (searches (snd (getAsBeatmapData (Example.machine [] [])
                        (Example.database undefined [Example.set_empty; Example.set_two]))))
      = 4.
Proof.
  split; [reflexivity|].
  destruct (two_searches_per_set (Example.machine [] [])
              (Example.database undefined [Example.set_empty; Example.set_two])
              _ eq_refl eq_refl) as (data & R & _ & L).
  exact (ex_intro _ data (conj R L)).
Defined.

(** A pass writes one console line per stored set, in storage order:
    "Loaded: " followed by the title of the record, which reads "undefined"
    for a set without beatmaps and "null" for a primary beatmap without
    title. *)
Theorem one_console_line_per_set (env : Env) (this : OsuLazerDatabase) (conn : Realm.t) :
  connection this = defined conn ->
  Realm.isClosed conn = false ->
  exists data,
    fst (getAsBeatmapData env this) = Return data /\
    console_lines (snd (getAsBeatmapData env this)) =
    map (fun r =>
           ("Loaded: " ++
            match title r with
            | undefined => "undefined"
            | defined null => "null"
            | defined (val s) => s
            end)%string) data.
Proof.
  intros connected live. exists (map (extracted_of env) (Realm.sets conn)).
  rewrite (getAsBeatmapData_run env this conn live connected). cbn [fst snd].
  rewrite console_lines_app, console_lines_sent, app_nil_r, console_lines_loop.
  split; [reflexivity|].
  apply map_ext. intros r. destruct (title r) as [[|s]|]; reflexivity.
Qed.

Lemma one_console_line_per_set_witness :
  connection (Example.database (defined 1) [Example.set_empty; Example.set_two])
    = defined (Example.live [Example.set_empty; Example.set_two]) /\
  console_lines (snd (getAsBeatmapData (Example.machine [] [])
                        (Example.database (defined 1) [Example.set_empty; Example.set_two])))
    = ["Loaded: undefined"; "Loaded: Freedom Dive"].
Proof.
  split; [reflexivity|].
  destruct (one_console_line_per_set (Example.machine [] [])
              (Example.database (defined 1) [Example.set_empty; Example.set_two])
              _ eq_refl eq_refl) as (data & R & L).
  injection R as <-. exact L.
Defined.

(** ** Paths and patterns *)

Lemma replace_backslashes_id (s : string) :
  has_backslash s = false -> replace_backslashes s = s.
Proof.
  induction s as [|c s IH]; [reflexivity|].
  cbn [has_backslash replace_backslashes]. intros H.
  apply orb_false_iff in H as [Hc Hs]. rewrite Hc, (IH Hs). reflexivity.
Qed.

(** When no match of the search holds a backslash, as on a POSIX machine, the
    paths kept for a hash are the matches themselves, in the order of the
    search. *)
Theorem clean_matches_unchanged (env : Env) (h : optional (nullable string)) :
  Forall (fun p => has_backslash p = false) (glob_matches env (glob_pattern env h)) ->
  glob_paths env h =
  (Return (glob_matches env (glob_pattern env h)), [GlobSearch (glob_pattern env h)]).
Proof.
  intros clean. rewrite glob_paths_run. unfold resolved_paths. f_equal. f_equal.
  induction clean as [|p ps Hp _ IH]; [reflexivity|].
  cbn [map]. rewrite (replace_backslashes_id p Hp), IH. reflexivity.
Qed.

Lemma clean_matches_unchanged_witness :
  forallb (fun p => negb (has_backslash p))
    (glob_matches (Example.machine [Example.deadbeef_path] [])
       (glob_pattern (Example.machine [Example.deadbeef_path] [])
          (defined (val "deadbeef")))) = true /\
  glob_paths (Example.machine [Example.deadbeef_path] []) (defined (val "deadbeef")) =
  (Return ["/home/user/.config/osu/files/d/de/deadbeef"],
   [GlobSearch "/home/user/.config/osu/files/d/de/deadbeef"]).
Proof.
  split; [reflexivity|].
  apply (clean_matches_unchanged (Example.machine [Example.deadbeef_path] [])
           (defined (val "deadbeef"))).
  vm_compute. constructor; [reflexivity|constructor].
Defined.

(** Replacing the separators keeps the length of a path and every character
    but the backslashes, each of which becomes a slash at the same place;
    replacing twice is replacing once. *)
Theorem replace_backslashes_pointwise (s : string) :
  String.length (replace_backslashes s) = String.length s /\
  (forall i,
     String.get i (replace_backslashes s) =
     option_map (fun c => if Ascii.eqb c "\"%char then "/"%char else c) (String.get i s)) /\
  replace_backslashes (replace_backslashes s) = replace_backslashes s.
Proof.
  split; [|split].
  - induction s as [|c s IH]; [reflexivity|]. cbn. rewrite IH. reflexivity.
  - induction s as [|c s IH]; intros i; [reflexivity|].
    destruct i as [|i]; [reflexivity|]. cbn. apply IH.
  - apply replace_backslashes_id, replace_backslashes_clean.
Qed.

(** The two shard directories of the pattern for a hash [h] are the first
    one and the first two characters of [h], fewer when [h] is shorter: each
    is a prefix of the next path segment. *)
Theorem shards_are_prefixes (env : Env) (h : string) :
  exists a b,
    glob_pattern env (defined (val h)) =
      (join env [appData env; "osu"; "files"] ++ "/" ++ a ++ "/" ++ b ++ "/" ++ h)%string /\
    prefix a b = true /\
    prefix b h = true /\
    String.length a = Nat.min 1 (String.length h) /\
    String.length b = Nat.min 2 (String.length h).
Proof.
  exists (substring 0 1 h), (substring 0 2 h).
  split; [apply glob_pattern_string|].
  destruct h as [|c [|d [|e t]]];
    repeat split; try reflexivity; apply prefix_correct; reflexivity.
Qed.

(** ** Finding the file of a name *)

Lemma find_ext_in {A : Type} (p q : A -> bool) (xs : list A) :
  (forall x, In x xs -> p x = q x) -> find_ p xs = find_ q xs.
Proof.
  unfold find_. induction xs as [|x xs IH]; intros H; [reflexivity|].
  cbn [find]. rewrite (H x (or_introl eq_refl)), IH; [reflexivity|].
  intros y Hy. apply H. right. exact Hy.
Qed.

Lemma find_first {A : Type} (p : A -> bool) (before after : list A) (x : A) :
  (forall y, In y before -> p y = false) -> p x = true ->
  find_ p (before ++ x :: after) = defined x.
Proof.
  unfold find_. intros Hb Hx. induction before as [|y before IH].
  - cbn. rewrite Hx. reflexivity.
  - cbn [app find]. rewrite (Hb y (or_introl eq_refl)).
    apply IH. intros z Hz. apply Hb. right. exact Hz.
Qed.

(** In the record of a set without beatmaps both file names are [undefined],
    and [null == undefined] holds: the audio hash and the background hash are
    both the hash of the first file usage without a name, if there is one,
    and the two paths are the same. *)
Theorem no_beatmap_takes_nameless_file (env : Env) (this : OsuLazerDatabase)
    (conn : Realm.t) (i : nat) (set : BeatmapSet.t) :
  connection this = defined conn ->
  Realm.isClosed conn = false ->
  nth_error (Realm.sets conn) i = Some set ->
  BeatmapSet.Beatmaps set = [] ->
  exists data r,
    fst (getAsBeatmapData env this) = Return data /\
    nth_error data i = Some r /\
    audio_hash r =
      chain (find_ (fun f => is_null (RealmNamedFileUsage.Filename f)) (BeatmapSet.Files set))
            (fun f => File.Hash (RealmNamedFileUsage.File f)) /\
    background_hash r = audio_hash r /\
    background_path r = audio_path r.
Proof.
  intros connected live stored none.
  exists (map (extracted_of env) (Realm.sets conn)), (extracted_of env set).
  split; [exact (getAsBeatmapData_data env this conn connected live)|].
  split; [exact (nth_error_extracted env _ _ _ stored)|].
  unfold extracted_of, audio_name, background_name, primary, at_.
  rewrite none. cbn. unfold file_hash.
  rewrite (find_ext_in
             (fun f => loose_eq (RealmNamedFileUsage.Filename f) undefined)
             (fun f => is_null (RealmNamedFileUsage.Filename f))).
  - repeat split; reflexivity.
  - intros f _. destruct (RealmNamedFileUsage.Filename f); reflexivity.
Qed.

Lemma no_beatmap_takes_nameless_file_witness :
  BeatmapSet.Beatmaps Corner.set_unnamed = [] /\
  exists data r,
    fst (getAsBeatmapData (Example.machine [] [])
           (Example.database undefined [Corner.set_unnamed])) = Return data /\
    nth_error data 0 = Some r /\
    audio_hash r = defined (val "00ff") /\
    background_hash r = audio_hash r /\
    background_path r = audio_path r.
Proof.
  split; [reflexivity|].
  exact (no_beatmap_takes_nameless_file (Example.machine [] [])
           (Example.database undefined [Corner.set_unnamed]) _ 0 Corner.set_unnamed
           eq_refl eq_refl eq_refl eq_refl).
Defined.

(** When the audio file name of the primary beatmap is filed more than once,
    the first file usage of that name, in the order of [Files], gives the
    audio hash, and the audio path is searched under that hash. *)
Theorem first_filed_name_wins (env : Env) (this : OsuLazerDatabase) (conn : Realm.t)
    (i : nat) (set : BeatmapSet.t) (b : Beatmap.t) (others : list Beatmap.t)
    (before after : list RealmNamedFileUsage.t) (f : RealmNamedFileUsage.t) :
  connection this = defined conn ->
  Realm.isClosed conn = false ->
  nth_error (Realm.sets conn) i = Some set ->
  BeatmapSet.Beatmaps set = b :: others ->
  BeatmapSet.Files set = before ++ f :: after ->
  (forall g, In g before ->
     loose_eq (RealmNamedFileUsage.Filename g)
       (defined (BeatmapMetadata.AudioFile (Beatmap.Metadata b))) = false) ->
  loose_eq (RealmNamedFileUsage.Filename f)
    (defined (BeatmapMetadata.AudioFile (Beatmap.Metadata b))) = true ->
  exists data r,
    fst (getAsBeatmapData env this) = Return data /\
    nth_error data i = Some r /\
    audio_hash r = defined (File.Hash (RealmNamedFileUsage.File f)) /\
    audio_path r =
      at_ (map replace_backslashes
             (glob_matches env
                (glob_pattern env (defined (File.Hash (RealmNamedFileUsage.File f)))))) 0.
Proof.
  intros connected live stored starts filed earlier here.
  exists (map (extracted_of env) (Realm.sets conn)), (extracted_of env set).
  split; [exact (getAsBeatmapData_data env this conn connected live)|].
  split; [exact (nth_error_extracted env _ _ _ stored)|].
  unfold extracted_of, resolved_paths, audio_name, primary, at_.
  rewrite starts, filed. cbn [nth_error chain audio_hash audio_path]. unfold file_hash.
  rewrite (find_first _ before after f earlier here). split; reflexivity.
Qed.

Lemma first_filed_name_wins_witness :
  BeatmapSet.Files Corner.set_twice
    = [Example.usage "a.png" "c0ffee"]
      ++ Example.usage "a.mp3" "aaaa" :: [Example.usage "a.mp3" "bbbb"] /\
  exists data r,
    fst (getAsBeatmapData Corner.windows_machine
           (Example.database undefined [Corner.set_twice])) = Return data /\
    nth_error data 0 = Some r /\
    audio_hash r = defined (val "aaaa") /\
    audio_path r = defined "C:/Users/user/AppData/Roaming/osu/files/a/aa/aaaa".
Proof.
  split; [reflexivity|].
  refine (first_filed_name_wins Corner.windows_machine
            (Example.database undefined [Corner.set_twice]) _ 0 Corner.set_twice
            _ _ [Example.usage "a.png" "c0ffee"] [Example.usage "a.mp3" "bbbb"]
            (Example.usage "a.mp3" "aaaa")
            eq_refl eq_refl eq_refl eq_refl eq_refl _ eq_refl).
  intros g [<-|[]]. reflexivity.
Defined.

(** ** What a record does not depend on *)

Lemma extracted_of_same_primary (env : Env) (a b : BeatmapSet.t) :
  same_primary a b -> extracted_of env a = extracted_of env b.
Proof.
  intros (I & H & F & P).
  unfold extracted_of, audio_name, background_name, primary.
  rewrite I, H, F, P. reflexivity.
Qed.

Lemma map_extracted_of_related (env : Env) (R : BeatmapSet.t -> BeatmapSet.t -> Prop)
    (sets sets' : list BeatmapSet.t) :
  (forall a b, R a b -> extracted_of env a = extracted_of env b) ->
  Forall2 R sets sets' ->
  map (extracted_of env) sets = map (extracted_of env) sets'.
Proof.
  intros same. induction 1 as [|a b sets sets' Hab _ IH]; [reflexivity|].
  cbn [map]. rewrite (same a b Hab), IH. reflexivity.
Qed.

(** Only the first beatmap of a set is read: two stores whose sets agree on
    id, hash, files and first beatmap yield the same records, the same
    searches and the same console lines, whatever beatmaps follow. *)
Theorem later_beatmaps_are_not_read (env : Env) (this this' : OsuLazerDatabase)
    (conn conn' : Realm.t) :
  connection this = defined conn ->
  Realm.isClosed conn = false ->
  connection this' = defined conn' ->
  Realm.isClosed conn' = false ->
  Forall2 same_primary (Realm.sets conn) (Realm.sets conn') ->
  (exists data, fst (getAsBeatmapData env this) = Return data) /\
  fst (getAsBeatmapData env this') = fst (getAsBeatmapData env this) /\
  searches (snd (getAsBeatmapData env this'))
    = searches (snd (getAsBeatmapData env this)) /\
  console_lines (snd (getAsBeatmapData env this'))
    = console_lines (snd (getAsBeatmapData env this)).
Proof.
  intros connected live connected' live' same.
  pose proof (map_extracted_of_related env same_primary _ _
                (extracted_of_same_primary env) same) as E.
  rewrite (getAsBeatmapData_run env this conn live connected).
  rewrite (getAsBeatmapData_run env this' conn' live' connected').
  cbn [fst snd].
  rewrite !searches_app, !searches_sent, !searches_loop.
  rewrite !console_lines_app, !console_lines_sent, !console_lines_loop.
  rewrite E. split; [eexists; reflexivity|]. repeat split; reflexivity.
Qed.

Lemma later_beatmaps_are_not_read_witness :
  Forall2 same_primary [Example.set_two] [Corner.set_three] /\
  (exists data,
     fst (getAsBeatmapData (Example.machine [] [])
            (Example.database undefined [Example.set_two])) = Return data) /\
  fst (getAsBeatmapData (Example.machine [] [])
         (Example.database (defined 1) [Corner.set_three]))
    = fst (getAsBeatmapData (Example.machine [] [])
             (Example.database undefined [Example.set_two])).
Proof.
  assert (S : Forall2 same_primary [Example.set_two] [Corner.set_three]).
  { constructor; [repeat split; reflexivity|constructor]. }
  split; [exact S|].
  destruct (later_beatmaps_are_not_read (Example.machine [] [])
              (Example.database undefined [Example.set_two])
              (Example.database (defined 1) [Corner.set_three])
              _ _ eq_refl eq_refl eq_refl eq_refl S) as (D & F & _).
  exact (conj D F).
Defined.

Lemma find_permutation {A : Type} (p : A -> bool) (l l' : list A) :
  Permutation l l' ->
  (forall x y, In x l -> In y l -> p x = true -> p y = true -> x = y) ->
  find_ p l = find_ p l'.
Proof.
  unfold find_. induction 1 as [|x l l' P IH|x y l|l l' l'' P IH P' IH']; intros U.
  - reflexivity.
  - cbn [find]. rewrite IH; [reflexivity|].
    intros a b Ha Hb. apply U; right; assumption.
  - cbn [find]. destruct (p x) eqn:Px, (p y) eqn:Py; try reflexivity.
    f_equal. apply U; cbn; auto.
  - rewrite IH by exact U. apply IH'.
    intros a b Ha Hb. apply U; apply (Permutation_in _ (Permutation_sym P)); assumption.
Qed.

Lemma NoDup_map_injective_on {A B : Type} (f : A -> B) (l : list A) (x y : A) :
  NoDup (map f l) -> In x l -> In y l -> f x = f y -> x = y.
Proof.
  induction l as [|a l IH]; intros N Hx Hy E; [destruct Hx|].
  cbn [map] in N. apply NoDup_cons_iff in N as [Na N].
  destruct Hx as [<-|Hx], Hy as [<-|Hy].
  - reflexivity.
  - exfalso. apply Na. rewrite E. apply in_map. exact Hy.
  - exfalso. apply Na. rewrite <- E. apply in_map. exact Hx.
  - exact (IH N Hx Hy E).
Qed.

Lemma loose_eq_same_name (a b : nullable string) (name : optional (nullable string)) :
  loose_eq a name = true -> loose_eq b name = true -> a = b.
Proof.
  destruct a as [|s], b as [|t], name as [[|n]|]; cbn; try discriminate; try reflexivity.
  intros Hs Ht. apply String.eqb_eq in Hs, Ht. congruence.
Qed.

Lemma file_hash_permutation (files files' : list RealmNamedFileUsage.t)
    (name : optional (nullable string)) :
  Permutation files files' ->
  NoDup (map RealmNamedFileUsage.Filename files) ->
  file_hash files name = file_hash files' name.
Proof.
  intros P N. unfold file_hash.
  rewrite (find_permutation
             (fun f => loose_eq (RealmNamedFileUsage.Filename f) name) files files' P);
    [reflexivity|].
  intros x y Hx Hy Px Py.
  apply (NoDup_map_injective_on RealmNamedFileUsage.Filename files x y N Hx Hy).
  exact (loose_eq_same_name _ _ name Px Py).
Qed.

Lemma extracted_of_same_files_reordered (env : Env) (a b : BeatmapSet.t) :
  same_files_reordered a b -> extracted_of env a = extracted_of env b.
Proof.
  intros (I & H & B & P & N).
  unfold extracted_of, audio_name, background_name, primary.
  rewrite I, H, B.
  rewrite (file_hash_permutation _ _
             (chain (at_ (BeatmapSet.Beatmaps b) 0)
                (fun b0 => BeatmapMetadata.AudioFile (Beatmap.Metadata b0))) P N).
  rewrite (file_hash_permutation _ _
             (chain (at_ (BeatmapSet.Beatmaps b) 0)
                (fun b0 => BeatmapMetadata.BackgroundFile (Beatmap.Metadata b0))) P N).
  reflexivity.
Qed.

(** When no two file usages of a set have the same name, the order of its
    [Files] does not matter: two stores whose sets differ only in that order
    yield the same records. *)
Theorem unique_names_make_file_order_irrelevant (env : Env)
    (this this' : OsuLazerDatabase) (conn conn' : Realm.t) :
  connection this = defined conn ->
  Realm.isClosed conn = false ->
  connection this' = defined conn' ->
  Realm.isClosed conn' = false ->
  Forall2 same_files_reordered (Realm.sets conn) (Realm.sets conn') ->
  (exists data, fst (getAsBeatmapData env this) = Return data) /\
  fst (getAsBeatmapData env this') = fst (getAsBeatmapData env this).
Proof.
  intros connected live connected' live' same.
  rewrite (getAsBeatmapData_data env this conn connected live).
  rewrite (getAsBeatmapData_data env this' conn' connected' live').
  rewrite (map_extracted_of_related env same_files_reordered _ _
             (extracted_of_same_files_reordered env) same).
  split; [eexists; reflexivity|reflexivity].
Qed.

Lemma unique_names_make_file_order_irrelevant_witness :
  Forall2 same_files_reordered [Example.set_two] [Corner.set_two_refiled] /\
  (exists data,
     fst (getAsBeatmapData (Example.machine [] [])
            (Example.database undefined [Example.set_two])) = Return data) /\
  fst (getAsBeatmapData (Example.machine [] [])
         (Example.database undefined [Corner.set_two_refiled]))
    = fst (getAsBeatmapData (Example.machine [] [])
             (Example.database undefined [Example.set_two])).
Proof.
  assert (S : Forall2 same_files_reordered [Example.set_two] [Corner.set_two_refiled]).
  { constructor; [|constructor].
    split; [reflexivity|]. split; [reflexivity|]. split; [reflexivity|].
    split; [apply Permutation_rev|].
    apply NoDup_cons; [intros [H|[]]; discriminate H|].
    apply NoDup_cons; [intros []|apply NoDup_nil]. }
  split; [exact S|].
  exact (unique_names_make_file_order_irrelevant (Example.machine [] [])
           (Example.database undefined [Example.set_two])
           (Example.database undefined [Corner.set_two_refiled])
           _ _ eq_refl eq_refl eq_refl eq_refl S).
Defined.

(** ** What the renderer shows *)

Lemma App_after_last (w : BrowserWindow) (t : list event) (data : string) :
  App.after w (t ++ [WebContentsSend w "debug-data" data]) = data.
Proof.
  unfold App.after. rewrite fold_left_app. cbn [fold_left App.listen].
  rewrite Nat.eqb_refl. reflexivity.
Qed.

(** Once the store has been opened and extracted for window [w], the renderer
    of [w], which started on the empty string, shows "Data: Data loaded.",
    however many sets the store holds. *)
Theorem renderer_ends_on_data_loaded (env : Env) (path : string) (w : BrowserWindow)
    (store : list BeatmapSet.t) :
  realm_open env path = Return store ->
  App.shown
    (App.after w (snd (db <- open env path (defined w) ;; getAsBeatmapData env db)))
  = "Data: Data loaded.".
Proof.
  intros Hopen. rewrite open_run, Hopen, bind_Return. cbn [snd].
  rewrite (getAsBeatmapData_run env
             {| connection := defined {| Realm.sets := store; Realm.isClosed := false |};
                window := defined w |}
             {| Realm.sets := store; Realm.isClosed := false |} eq_refl eq_refl).
  cbn [snd]. unfold sent at 2. cbn [window].
  rewrite !app_assoc, App_after_last. reflexivity.
Qed.

Lemma renderer_ends_on_data_loaded_witness :
  realm_open (Example.machine [] (repeat Example.set_two 60)) "client.realm"
    = Return (repeat Example.set_two 60) /\
  App.shown
    (App.after 1
       (snd (db <- open (Example.machine [] (repeat Example.set_two 60)) "client.realm"
                     (defined 1) ;;
             getAsBeatmapData (Example.machine [] (repeat Example.set_two 60)) db)))
  = "Data: Data loaded.".
Proof.
  split; [reflexivity|].
  exact (renderer_ends_on_data_loaded (Example.machine [] (repeat Example.set_two 60))
           "client.realm" 1 (repeat Example.set_two 60) eq_refl).
Defined.

(** When Realm rejects the store, the renderer of the window is left showing
    "Data: Try to connect realm db...": no later message replaces it. *)
Theorem renderer_stays_on_connecting (env : Env) (path : string) (w : BrowserWindow)
    (e : exn) :
  realm_open env path = Throw e ->
  App.shown
    (App.after w (snd (db <- open env path (defined w) ;; getAsBeatmapData env db)))
  = "Data: Try to connect realm db...".
Proof.
  intros Hopen. rewrite open_run, Hopen. cbn. rewrite Nat.eqb_refl. reflexivity.
Qed.

Lemma renderer_stays_on_connecting_witness :
  realm_open Corner.locked_machine "client.realm"
    = Throw (Error "Unable to open a realm at path.") /\
  App.shown
    (App.after 1
       (snd (db <- open Corner.locked_machine "client.realm" (defined 1) ;;
             getAsBeatmapData Corner.locked_machine db)))
  = "Data: Try to connect realm db...".
Proof.
  split; [reflexivity|].
  exact (renderer_stays_on_connecting Corner.locked_machine "client.realm" 1
           (Error "Unable to open a realm at path.") eq_refl).
Defined.

(** ** Where messages go *)

Lemma recipients_app (t u : list event) :
  recipients (t ++ u) = recipients t ++ recipients u.
Proof.
  induction t as [|e t IH]; [reflexivity|].
  destruct e; cbn; rewrite IH; reflexivity.
Qed.

Lemma recipients_sent (this : OsuLazerDatabase) (w : BrowserWindow) (data : string) :
  window this = defined w ->
  Forall (fun r => r = (w, "debug-data")) (recipients (sent this data)).
Proof. unfold sent. intros ->. repeat constructor. Qed.

Lemma recipients_loop (env : Env) (this : OsuLazerDatabase) (w : BrowserWindow)
    (total count : nat) (sets : list BeatmapSet.t) :
  window this = defined w ->
  Forall (fun r => r = (w, "debug-data"))
    (recipients (loop_trace env this total count sets)).
Proof.
  intros W. revert count.
  induction sets as [|set rest IH]; intros count; [constructor|].
  cbn [loop_trace]. rewrite recipients_app. apply Forall_app. split; [|apply IH].
  unfold turn_trace. cbn [app recipients]. rewrite recipients_app. cbn [recipients].
  rewrite app_nil_r. destruct (Nat.eqb (S count mod 50) 0); [|constructor].
  apply recipients_sent. exact W.
Qed.

(** Whatever the state of the connection, every message of [open] and of a
    pass goes to the window of the instance, on the channel "debug-data":
    no other window and no other channel is ever used. *)
Theorem messages_go_to_own_window (env : Env) (this : OsuLazerDatabase)
    (w : BrowserWindow) (path : string) :
  window this = defined w ->
  Forall (fun r => r = (w, "debug-data")) (recipients (snd (getAsBeatmapData env this))) /\
  Forall (fun r => r = (w, "debug-data")) (recipients (snd (open env path (defined w)))).
Proof.
  intros W. split.
  - destruct (connection this) as [conn|] eqn:C.
    + destruct (Realm.isClosed conn) eqn:L.
      * unfold getAsBeatmapData. rewrite C. unfold Realm.objects. rewrite L. constructor.
      * rewrite (getAsBeatmapData_run env this conn L C). cbn [snd].
        rewrite recipients_app. apply Forall_app.
        split; [apply recipients_loop|apply recipients_sent]; exact W.
    + unfold getAsBeatmapData. rewrite C. constructor.
  - rewrite open_run. destruct (realm_open env path); repeat constructor.
Qed.

Lemma messages_go_to_own_window_witness :
  window (Example.database (defined 3) (repeat Example.set_two 50)) = defined 3 /\
  recipients (snd (getAsBeatmapData (Example.machine [] [])
                     (Example.database (defined 3) (repeat Example.set_two 50))))
    = [(3, "debug-data"); (3, "debug-data")] /\
  Forall (fun r => r = (3, "debug-data"))
    (recipients (snd (getAsBeatmapData (Example.machine [] [])
                        (Example.database (defined 3) (repeat Example.set_two 50))))).
Proof.
  split; [reflexivity|]. split; [vm_compute; reflexivity|].
  exact (proj1 (messages_go_to_own_window (Example.machine [] [])
                  (Example.database (defined 3) (repeat Example.set_two 50))
                  3 "client.realm" eq_refl)).
Defined.

(** ** From the file found to the path of the record *)

Lemma nth_error_pairs {A B : Type} (f g : A -> B) (l : list A) (i : nat) :
  nth_error (flat_map (fun x => [f x; g x]) l) (2 * i) = option_map f (nth_error l i) /\
  nth_error (flat_map (fun x => [f x; g x]) l) (2 * i + 1) = option_map g (nth_error l i).
Proof.
  revert i. induction l as [|x l IH]; intros i.
  - cbn [flat_map]. rewrite !nth_error_nil. destruct i; split; reflexivity.
  - destruct i as [|i]; [split; reflexivity|].
    replace (2 * S i) with (S (S (2 * i))) by lia.
    cbn [flat_map app Nat.add nth_error]. exact (IH i).
Qed.

(** The file usage [files.find] returns for the audio ([background = false])
    or the background ([background = true]) name of a set decides the hash of
    the record, the pattern searched at the set's turn and the path kept. *)
Lemma found_file_decides (env : Env) (this : OsuLazerDatabase) (conn : Realm.t)
    (i : nat) (set : BeatmapSet.t) (background : bool) (f : RealmNamedFileUsage.t) :
  connection this = defined conn ->
  Realm.isClosed conn = false ->
  nth_error (Realm.sets conn) i = Some set ->
  find_
    (fun g =>
       loose_eq (RealmNamedFileUsage.Filename g)
         (chain (at_ (BeatmapSet.Beatmaps set) 0)
            (fun b =>
               if background
               then BeatmapMetadata.BackgroundFile (Beatmap.Metadata b)
               else BeatmapMetadata.AudioFile (Beatmap.Metadata b))))
    (BeatmapSet.Files set) = defined f ->
  exists data r,
    fst (getAsBeatmapData env this) = Return data /\
    nth_error data i = Some r /\
    (if background then background_hash r else audio_hash r)
      = defined (File.Hash (RealmNamedFileUsage.File f)) /\
    (if background then background_path r else audio_path r)
      = at_ (resolved_paths env (defined (File.Hash (RealmNamedFileUsage.File f)))) 0 /\
    nth_error (searches (snd (getAsBeatmapData env this)))
      (2 * i + (if background then 1 else 0))
      = Some (glob_pattern env (defined (File.Hash (RealmNamedFileUsage.File f)))).
Proof.
  intros connected live stored found.
  exists (map (extracted_of env) (Realm.sets conn)), (extracted_of env set).
  split; [exact (getAsBeatmapData_data env this conn connected live)|].
  split; [exact (nth_error_extracted env _ _ _ stored)|].
  rewrite (getAsBeatmapData_run env this conn live connected). cbn [snd].
  rewrite searches_app, searches_sent, app_nil_r, searches_loop.
  destruct (nth_error_pairs
              (fun r => glob_pattern env (audio_hash r))
              (fun r => glob_pattern env (background_hash r))
              (map (extracted_of env) (Realm.sets conn)) i) as [Ea Eb].
  rewrite (nth_error_extracted env _ _ _ stored) in Ea, Eb.
  destruct background.
  - assert (H : background_hash (extracted_of env set)
                = defined (File.Hash (RealmNamedFileUsage.File f))).
    { cbn [extracted_of background_hash]. unfold file_hash, background_name, primary.
      rewrite found. reflexivity. }
    rewrite Eb. cbn [option_map]. rewrite <- H. repeat split; reflexivity.
  - assert (H : audio_hash (extracted_of env set)
                = defined (File.Hash (RealmNamedFileUsage.File f))).
    { cbn [extracted_of audio_hash]. unfold file_hash, audio_name, primary.
      rewrite found. reflexivity. }
    rewrite Nat.add_0_r, Ea. cbn [option_map]. rewrite <- H. repeat split; reflexivity.
Qed.

(** C7.  For a hash [h] the search pattern is
    [join(appData, "osu", "files")/h[0:1]/h[0:2]/h], and no returned path
    holds a backslash.  When the file usage that [files.find] returns for the
    audio (or the background) name of the [i]-th stored set has the hash [h],
    the [i]-th record has that hash, the pass searches exactly that pattern at
    the set's turn (search [2 * i] for the audio, [2 * i + 1] for the
    background), and the path of the record is the first of the paths
    returned for it. *)
Theorem sharded_lookup (env : Env) (this : OsuLazerDatabase) (conn : Realm.t)
    (i : nat) (set : BeatmapSet.t) (background : bool) (f : RealmNamedFileUsage.t)
    (h : string) :
  connection this = defined conn ->
  Realm.isClosed conn = false ->
  nth_error (Realm.sets conn) i = Some set ->
  find_
    (fun g =>
       loose_eq (RealmNamedFileUsage.Filename g)
         (chain (at_ (BeatmapSet.Beatmaps set) 0)
            (fun b =>
               if background
               then BeatmapMetadata.BackgroundFile (Beatmap.Metadata b)
               else BeatmapMetadata.AudioFile (Beatmap.Metadata b))))
    (BeatmapSet.Files set) = defined f ->
  File.Hash (RealmNamedFileUsage.File f) = val h ->
  let pattern :=
    (join env [appData env; "osu"; "files"] ++ "/" ++ substring 0 1 h ++ "/" ++
     substring 0 2 h ++ "/" ++ h)%string in
  glob_paths env (defined (val h)) =
    (Return (map replace_backslashes (glob_matches env pattern)), [GlobSearch pattern]) /\
  Forall (fun p => has_backslash p = false)
    (map replace_backslashes (glob_matches env pattern)) /\
  exists data r,
    fst (getAsBeatmapData env this) = Return data /\
    nth_error data i = Some r /\
    (if background then background_hash r else audio_hash r) = defined (val h) /\
    (if background then background_path r else audio_path r)
      = at_ (map replace_backslashes (glob_matches env pattern)) 0 /\
    nth_error (searches (snd (getAsBeatmapData env this)))
      (2 * i + (if background then 1 else 0)) = Some pattern.
Proof.
  intros connected live stored found hashed. cbv zeta.
  rewrite <- glob_pattern_string. split; [apply glob_paths_run|].
  split; [apply resolved_paths_clean|].
  destruct (found_file_decides env this conn i set background f
              connected live stored found) as (data & r & R & N & H & P & S).
  rewrite hashed in H, P, S.
  exists data, r. repeat split; assumption.
Qed.

Lemma sharded_lookup_witness :
  (find_
     (fun g => loose_eq (RealmNamedFileUsage.Filename g) (defined (val "track.mp3")))
     (BeatmapSet.Files (Example.set42 null null null null null))
   = defined (Example.usage "track.mp3" "deadbeef") /\
   find_
     (fun g => loose_eq (RealmNamedFileUsage.Filename g) (defined (val "bg.jpg")))
     (BeatmapSet.Files (Example.set42 null null null null null))
   = defined (Example.usage "bg.jpg" "f00dface")) /\
  (glob_paths (Example.machine [Example.deadbeef_path] []) (defined (val "deadbeef")) =
     (Return ["/home/user/.config/osu/files/d/de/deadbeef"],
      [GlobSearch "/home/user/.config/osu/files/d/de/deadbeef"]) /\
   exists data r,
     fst (getAsBeatmapData (Example.machine [Example.deadbeef_path] [])
            (Example.database undefined [Example.set42 null null null null null]))
       = Return data /\
     nth_error data 0 = Some r /\
     audio_hash r = defined (val "deadbeef") /\
     audio_path r = defined "/home/user/.config/osu/files/d/de/deadbeef" /\
     nth_error
       (searches
          (snd (getAsBeatmapData (Example.machine [Example.deadbeef_path] [])
                  (Example.database undefined [Example.set42 null null null null null]))))
       0 = Some "/home/user/.config/osu/files/d/de/deadbeef") /\
  (exists data r,
     fst (getAsBeatmapData (Example.machine [Example.deadbeef_path] [])
            (Example.database undefined [Example.set42 null null null null null]))
       = Return data /\
     nth_error data 0 = Some r /\
     background_hash r = defined (val "f00dface") /\
     background_path r = undefined /\
     nth_error
       (searches
          (snd (getAsBeatmapData (Example.machine [Example.deadbeef_path] [])
                  (Example.database undefined [Example.set42 null null null null null]))))
       1 = Some "/home/user/.config/osu/files/f/f0/f00dface").
Proof.
  split; [split; reflexivity|].
  pose proof (sharded_lookup (Example.machine [Example.deadbeef_path] [])
                (Example.database undefined [Example.set42 null null null null null])
                _ 0 (Example.set42 null null null null null) false
                (Example.usage "track.mp3" "deadbeef") "deadbeef"
                eq_refl eq_refl eq_refl eq_refl eq_refl) as (G & _ & A).
  pose proof (sharded_lookup (Example.machine [Example.deadbeef_path] [])
                (Example.database undefined [Example.set42 null null null null null])
                _ 0 (Example.set42 null null null null null) true
                (Example.usage "bg.jpg" "f00dface") "f00dface"
                eq_refl eq_refl eq_refl eq_refl eq_refl) as (_ & _ & B).
  exact (conj (conj G A) B).
Defined.

(** The file usage found by name may lead to a file without hash.  When the
    file usage that [files.find] returns for the audio (or the background)
    name of the [i]-th stored set has the hash [null], the [i]-th record has
    the hash [null], the pass searches
    [<appData>/osu/files/undefined/undefined/null] at the set's turn, and the
    path of the record is the first match of that search, [undefined] if
    there is none. *)
Theorem null_hash_is_searched (env : Env) (this : OsuLazerDatabase) (conn : Realm.t)
    (i : nat) (set : BeatmapSet.t) (background : bool) (f : RealmNamedFileUsage.t) :
  connection this = defined conn ->
  Realm.isClosed conn = false ->
  nth_error (Realm.sets conn) i = Some set ->
  find_
    (fun g =>
       loose_eq (RealmNamedFileUsage.Filename g)
         (chain (at_ (BeatmapSet.Beatmaps set) 0)
            (fun b =>
               if background
               then BeatmapMetadata.BackgroundFile (Beatmap.Metadata b)
               else BeatmapMetadata.AudioFile (Beatmap.Metadata b))))
    (BeatmapSet.Files set) = defined f ->
  File.Hash (RealmNamedFileUsage.File f) = null ->
  let pattern :=
    (join env [appData env; "osu"; "files"] ++ "/undefined/undefined/null")%string in
  exists data r,
    fst (getAsBeatmapData env this) = Return data /\
    nth_error data i = Some r /\
    (if background then background_hash r else audio_hash r) = defined null /\
    (if background then background_path r else audio_path r)
      = at_ (map replace_backslashes (glob_matches env pattern)) 0 /\
    (glob_matches env pattern = [] ->
     (if background then background_path r else audio_path r) = undefined) /\
    nth_error (searches (snd (getAsBeatmapData env this)))
      (2 * i + (if background then 1 else 0)) = Some pattern.
Proof.
  intros connected live stored found hashed. cbv zeta.
  destruct (found_file_decides env this conn i set background f
              connected live stored found) as (data & r & R & N & H & P & S).
  rewrite hashed in H, P, S.
  exists data, r. repeat split; try assumption.
  intros E. rewrite P. unfold resolved_paths.
  change (glob_pattern env (defined null))
    with (join env [appData env; "osu"; "files"] ++ "/undefined/undefined/null")%string.
  rewrite E. reflexivity.
Qed.

Lemma null_hash_is_searched_witness :
  find_
    (fun g => loose_eq (RealmNamedFileUsage.Filename g) (defined (val "a.mp3")))
    (BeatmapSet.Files Corner.set_hashless) = defined (Corner.hashless "a.mp3") /\
  exists data r,
    fst (getAsBeatmapData (Example.machine [] [])
           (Example.database undefined [Example.set_two; Corner.set_hashless]))
      = Return data /\
    nth_error data 1 = Some r /\
    audio_hash r = defined null /\
    audio_path r = undefined /\
    nth_error
      (searches
         (snd (getAsBeatmapData (Example.machine [] [])
                 (Example.database undefined [Example.set_two; Corner.set_hashless]))))
      2 = Some "/home/user/.config/osu/files/undefined/undefined/null".
Proof.
  split; [reflexivity|].
  destruct (null_hash_is_searched (Example.machine [] [])
              (Example.database undefined [Example.set_two; Corner.set_hashless])
              _ 1 Corner.set_hashless false (Corner.hashless "a.mp3")
              eq_refl eq_refl eq_refl eq_refl eq_refl)
    as (data & r & R & N & H & _ & P & S).
  exact (ex_intro _ data (ex_intro _ r
           (conj R (conj N (conj H (conj (P eq_refl) S)))))).
Defined.
